(** * EtherCAT base datagram layer (ethercatbase.c)

    A shallow embedding of the frame builder ([Nexx__setupdatagram],
    [Nexx__adddatagram]) and of the blocking datagram primitives built on
    it, together with the properties of the byte layout they produce.

    Conventions.
    - A byte is a [Z] in [0, 256); a buffer ([txbuf[i]], [rxbuf[i]], the
      caller's [data]) is a [list Z].  Offsets and C integers are [Z].
    - A store or load outside the buffer it addresses is undefined in C;
      the embedding returns [None] there, and every function that touches
      memory lives in [option].
    - Multi-byte wire fields are little-endian.  [htoes v] is the memory
      image of a [uint16] field that was assigned [htoes(v)], so the
      embedding of the frame layout does not depend on the host order.
    - Where [Nexx__LRWDC] copies raw bytes into the [int] [wkc]
      ([memcpy(&wkc, ...)], without [etohs]) the result depends on the
      byte order of the host, which is a parameter of the embedding
      ([big_endian] of [Target]).  The word primitives ([Nexx__APRDw],
      [Nexx__FPRDw], [Nexx__APWRw], [Nexx__FPWRw]), which hand the raw
      bytes of a [uint16] to their callers, are given for a little-endian
      host.
    - The parameter [length] of the source is written [len]. *)

From stdpp Require Import base numbers option list.

Local Open Scope Z_scope.

(** * The model *)

(** ** Constants of ethercattype.h *)

(** Modelled from the spec: ethercattype.h, which declares the constants
    and the datagram header that ethercatbase.c uses, is not part of the
    sources at hand.  The Ethernet header is 14 bytes. *)
Definition ETH_HEADERSIZE : Z := 14.

(** Modelled from the spec: [struct Nex_comt], the EtherCAT length word
    followed by the ten-byte datagram sub-header (command, index, ADP, ADO,
    dlength, IRQ), packed.  These are the byte offsets of its fields. *)
Definition off_elength : Z := 0.
Definition off_command : Z := 2.
Definition off_index : Z := 3.
Definition off_ADP : Z := 4.
Definition off_ADO : Z := 6.
Definition off_dlength : Z := 8.
Definition off_irpt : Z := 10.

(** Modelled from the spec: [Nex_HEADERSIZE] is the size of [Nex_comt].
    The code puts the payload of the first datagram at [ETH_HEADERSIZE +
    Nex_HEADERSIZE] and the frame length at [ETH_HEADERSIZE + Nex_HEADERSIZE
    + Nex_WKCSIZE + length]; the wire layout has the payload at offset 26,
    after the length word at 14 and the sub-header at 16, and a frame of
    1514 bytes for a payload of 1486.  Both give 12.  (Where the spec adds
    10 to a length it counts the sub-header without the length word.) *)
Definition Nex_HEADERSIZE : Z := 12.

(** Modelled from the spec: the size of the EtherCAT length word and of a
    working counter, and the offset of the command byte in a received
    frame, which starts at the length word. *)
Definition Nex_ELENGTHSIZE : Z := 2.
Definition Nex_CMDOFFSET : Z := Nex_ELENGTHSIZE.
Definition Nex_WKCSIZE : Z := 2.

(** Modelled from the spec: bit 15 of dlength, another datagram follows. *)
Definition Nex_DATAGRAMFOLLOWS : Z := Z.shiftl 1 15.

(** Modelled from the spec: protocol type 1 in the top nibble of the
    EtherCAT length word. *)
Definition Nex_ECATTYPE : Z := 0x1000.

(** Modelled from the spec: the DC system time register, the state of a
    free slot, and the value the transport returns when no frame came back. *)
Definition ECT_REG_DCSYSTIME : Z := 0x0910.
Definition Nex_BUF_EMPTY : Z := 0.
Definition Nex_NOFRAME : Z := -1.

(** Modelled from the spec: the command codes. *)
Definition Nex_CMD_NOP : Z := 0.
Definition Nex_CMD_APRD : Z := 1.
Definition Nex_CMD_APWR : Z := 2.
Definition Nex_CMD_APRW : Z := 3.
Definition Nex_CMD_FPRD : Z := 4.
Definition Nex_CMD_FPWR : Z := 5.
Definition Nex_CMD_FPRW : Z := 6.
Definition Nex_CMD_BRD : Z := 7.
Definition Nex_CMD_BWR : Z := 8.
Definition Nex_CMD_BRW : Z := 9.
Definition Nex_CMD_LRD : Z := 10.
Definition Nex_CMD_LWR : Z := 11.
Definition Nex_CMD_LRW : Z := 12.
Definition Nex_CMD_ARMW : Z := 13.
Definition Nex_CMD_FRMW : Z := 14.

(** ** Integer types and byte order *)

Definition uint8 (z : Z) : Prop := 0 ≤ z < 256.
Definition uint16 (z : Z) : Prop := 0 ≤ z < 65536.

(** Little-endian image of the low [n] bytes of [v]. *)
Fixpoint le_bytes (n : nat) (v : Z) : list Z :=
  match n with
  | O => []
  | S n' => v `mod` 256 :: le_bytes n' (v `div` 256)
  end.

(** Unsigned value of a little-endian byte string. *)
Fixpoint le_value (bs : list Z) : Z :=
  match bs with
  | [] => 0
  | b :: bs' => b + 256 * le_value bs'
  end.

Definition htoes (v : Z) : list Z := le_bytes 2 v.
Definition etohs (bs : list Z) : Z := le_value bs.
Definition htoell (v : Z) : list Z := le_bytes 8 v.
(** [etohll] followed by the conversion to [int64]. *)
Definition etohll (bs : list Z) : Z :=
  let u := le_value bs in if decide (u < 2 ^ 63) then u else u - 2 ^ 64.

Definition LO_WORD (l : Z) : Z := Z.land l 0xffff.
Definition HI_WORD (l : Z) : Z := Z.shiftr l 16.

(** ** Buffers *)

(** [len] bytes of [buf] starting at [off]. *)
Definition read_bytes (buf : list Z) (off len : Z) : option (list Z) :=
  if decide (0 ≤ off ∧ 0 ≤ len ∧ off + len ≤ Z.of_nat (length buf))
  then Some (take (Z.to_nat len) (drop (Z.to_nat off) buf))
  else None.

(** Overwrite [buf] from [off] on with [bs]. *)
Definition write_bytes (buf : list Z) (off : Z) (bs : list Z) : option (list Z) :=
  if decide (0 ≤ off ∧ off + Z.of_nat (length bs) ≤ Z.of_nat (length buf))
  then Some (list_inserts (Z.to_nat off) bs buf)
  else None.

(** [memset(buf + off, 0, len)]. *)
Definition memset0 (buf : list Z) (off len : Z) : option (list Z) :=
  if decide (0 ≤ len) then write_bytes buf off (replicate (Z.to_nat len) 0)
  else None.

(** [memcpy(dst + off, src, len)]. *)
Definition memcpy (dst : list Z) (off : Z) (src : list Z) (len : Z) : option (list Z) :=
  bs ← read_bytes src 0 len; write_bytes dst off bs.

(** ** Port context *)

(** The fields of [Nexx__portt] that this layer reads or writes. *)
Record Nexx__portt : Type := mk_port {
  txbuf : list (list Z);
  rxbuf : list (list Z);
  txbuflength : list Z;
  bufstat : list Z
}.

(** [port->txbuflength[idx] = v]. *)
Definition set_txbuflength (port : Nexx__portt) (idx v : Z) : option Nexx__portt :=
  if decide (0 ≤ idx < Z.of_nat (length (txbuflength port)))
  then Some (mk_port (txbuf port) (rxbuf port)
                     (<[Z.to_nat idx := v]> (txbuflength port)) (bufstat port))
  else None.

Definition get_txbuflength (port : Nexx__portt) (idx : Z) : option Z :=
  if decide (0 ≤ idx) then txbuflength port !! Z.to_nat idx else None.

(** ** Frame builder *)

Definition is_read_cmd (com : Z) : bool :=
  bool_decide (com = Nex_CMD_NOP ∨ com = Nex_CMD_APRD ∨ com = Nex_CMD_FPRD
               ∨ com = Nex_CMD_BRD ∨ com = Nex_CMD_LRD).

(** [Nexx__writedatagramdata(&frame[off], com, length, data)]. *)
Definition Nexx__writedatagramdata (frame : list Z) (off : Z) (com len : Z)
    (data : list Z) : option (list Z) :=
  if decide (len > 0) then
    if is_read_cmd com then memset0 frame off len
    else memcpy frame off data len
  else Some frame.

Definition Nexx__setupdatagram (port : Nexx__portt) (frame : list Z)
    (com idx ADP ADO len : Z) (data : list Z)
    : option (Nexx__portt * list Z * Z) :=
  let datagramP := ETH_HEADERSIZE in
  frame ← write_bytes frame (datagramP + off_elength)
            (htoes (Nex_ECATTYPE + Nex_HEADERSIZE + len));
  frame ← write_bytes frame (datagramP + off_command) [com];
  frame ← write_bytes frame (datagramP + off_index) [idx];
  frame ← write_bytes frame (datagramP + off_ADP) (htoes ADP);
  frame ← write_bytes frame (datagramP + off_ADO) (htoes ADO);
  frame ← write_bytes frame (datagramP + off_dlength) (htoes len);
  frame ← Nexx__writedatagramdata frame (ETH_HEADERSIZE + Nex_HEADERSIZE) com len data;
  frame ← write_bytes frame (ETH_HEADERSIZE + Nex_HEADERSIZE + len) [0];
  frame ← write_bytes frame (ETH_HEADERSIZE + Nex_HEADERSIZE + len + 1) [0];
  port ← set_txbuflength port idx
           (ETH_HEADERSIZE + Nex_HEADERSIZE + Nex_WKCSIZE + len);
  Some (port, frame, 0).

Definition Nexx__adddatagram (port : Nexx__portt) (frame : list Z)
    (com idx : Z) (more : bool) (ADP ADO len : Z) (data : list Z)
    : option (Nexx__portt * list Z * Z) :=
  txlen ← get_txbuflength port idx;
  let prevlength := txlen `mod` 65536 in
  let datagramP := ETH_HEADERSIZE in
  el ← read_bytes frame (datagramP + off_elength) 2;
  frame ← write_bytes frame (datagramP + off_elength)
            (htoes (etohs el + Nex_HEADERSIZE + len));
  dl ← read_bytes frame (datagramP + off_dlength) 2;
  frame ← write_bytes frame (datagramP + off_dlength)
            (htoes (Z.lor (etohs dl) Nex_DATAGRAMFOLLOWS));
  let datagramP := prevlength - Nex_ELENGTHSIZE in
  frame ← write_bytes frame (datagramP + off_command) [com];
  frame ← write_bytes frame (datagramP + off_index) [idx];
  frame ← write_bytes frame (datagramP + off_ADP) (htoes ADP);
  frame ← write_bytes frame (datagramP + off_ADO) (htoes ADO);
  frame ← write_bytes frame (datagramP + off_dlength)
            (if more then htoes (Z.lor len Nex_DATAGRAMFOLLOWS) else htoes len);
  frame ← Nexx__writedatagramdata frame
            (prevlength + Nex_HEADERSIZE - Nex_ELENGTHSIZE) com len data;
  frame ← write_bytes frame (prevlength + Nex_HEADERSIZE - Nex_ELENGTHSIZE + len) [0];
  frame ← write_bytes frame (prevlength + Nex_HEADERSIZE - Nex_ELENGTHSIZE + len + 1) [0];
  port ← set_txbuflength port idx
           (prevlength + Nex_HEADERSIZE - Nex_ELENGTHSIZE + Nex_WKCSIZE + len);
  Some (port, frame,
        prevlength + Nex_HEADERSIZE - Nex_ELENGTHSIZE - ETH_HEADERSIZE).

(** ** Datagram primitives *)

(** Modelled from the spec: the transport of nicdrv.c, which this layer
    consumes and whose code is not part of the sources at hand.
    [Nexx__getindex] hands out a transaction index, [Nexx__srconfirm]
    sends slot [idx], waits for the answer in [rxbuf[idx]] and returns the
    working counter or a negative value, [Nexx__setbufstat] sets the state
    of a slot. *)
Class NicDrv : Type := {
  Nexx__getindex : Nexx__portt → Nexx__portt * Z;
  Nexx__srconfirm : Nexx__portt → Z → Z → Nexx__portt * Z;
  Nexx__setbufstat : Nexx__portt → Z → Z → Nexx__portt
}.

(** The target the code is compiled for: the size of a data pointer,
    [sizeof(int64 * )], and the byte order of its integers.  [lp64] and
    [ilp32] are little-endian targets, [lp64_be] is a big-endian one. *)
Class Target : Type := { sizeof_ptr : Z; big_endian : bool }.
Definition lp64 : Target := {| sizeof_ptr := 8; big_endian := false |}.
Definition ilp32 : Target := {| sizeof_ptr := 4; big_endian := false |}.
Definition lp64_be : Target := {| sizeof_ptr := 8; big_endian := true |}.

(** [port->txbuf[idx]] and [port->rxbuf[idx]]. *)
Definition tx_frame (port : Nexx__portt) (idx : Z) : option (list Z) :=
  if decide (0 ≤ idx) then txbuf port !! Z.to_nat idx else None.

Definition rx_frame (port : Nexx__portt) (idx : Z) : option (list Z) :=
  if decide (0 ≤ idx) then rxbuf port !! Z.to_nat idx else None.

(** The frame builder works in place on [port->txbuf[idx]]; this puts the
    frame it built back into the port. *)
Definition set_tx_frame (port : Nexx__portt) (idx : Z) (frame : list Z)
    : Nexx__portt :=
  mk_port (<[Z.to_nat idx := frame]> (txbuf port)) (rxbuf port)
          (txbuflength port) (bufstat port).

(** Object representation of an [int] on the target: four bytes, the
    least significant first on a little-endian target, the most
    significant first on a big-endian one. *)
Definition bytes_of_int `{Target} (v : Z) : list Z :=
  if big_endian then reverse (le_bytes 4 v) else le_bytes 4 v.
Definition int_of_bytes `{Target} (bs : list Z) : Z :=
  let u := le_value (if big_endian then reverse bs else bs) in
  if decide (u < 2 ^ 31) then u else u - 2 ^ 32.

(** [memcpy(&wkc, src, Nex_WKCSIZE)]: the bytes of the [int] at the lowest
    addresses are replaced by [src]; no byte-order conversion is applied. *)
Definition memcpy_to_int `{Target} (wkc : Z) (src : list Z) : Z :=
  int_of_bytes (src ++ drop (length src) (bytes_of_int wkc)).

(** [memcpy(data, &(port->rxbuf[idx][Nex_HEADERSIZE]), length)]. *)
Definition copy_reply (port : Nexx__portt) (idx : Z) (data : list Z) (len : Z)
    : option (list Z) :=
  rx ← rx_frame port idx;
  memcpy data 0 (drop (Z.to_nat Nex_HEADERSIZE) rx) len.

(** [port->rxbuf[idx][Nex_CMDOFFSET]]. *)
Definition reply_command (port : Nexx__portt) (idx : Z) : option Z :=
  rx ← rx_frame port idx; rx !! Z.to_nat Nex_CMDOFFSET.

Section Primitives.
Context `{NicDrv} `{Target}.

Definition Nexx__APRD (port : Nexx__portt) (ADP ADO len : Z) (data : list Z)
    (timeout : Z) : option (Nexx__portt * list Z * Z) :=
  let '(port, idx) := Nexx__getindex port in
  frame ← tx_frame port idx;
  '(port, frame, _) ← Nexx__setupdatagram port frame Nex_CMD_APRD idx
                        ADP ADO len data;
  let port := set_tx_frame port idx frame in
  let '(port, wkc) := Nexx__srconfirm port idx timeout in
  data ← (if decide (wkc > 0) then copy_reply port idx data len
          else Some data);
  Some (Nexx__setbufstat port idx Nex_BUF_EMPTY, data, wkc).

Definition Nexx__APRDw (port : Nexx__portt) (ADP ADO timeout : Z)
    : option (Nexx__portt * Z) :=
  let w := le_bytes 2 0 in
  '(port, w, _) ← Nexx__APRD port ADP ADO 2 w timeout;
  Some (port, le_value w).

Definition Nexx__FPRD (port : Nexx__portt) (ADP ADO len : Z) (data : list Z)
    (timeout : Z) : option (Nexx__portt * list Z * Z) :=
  let '(port, idx) := Nexx__getindex port in
  frame ← tx_frame port idx;
  '(port, frame, _) ← Nexx__setupdatagram port frame Nex_CMD_FPRD idx
                        ADP ADO len data;
  let port := set_tx_frame port idx frame in
  let '(port, wkc) := Nexx__srconfirm port idx timeout in
  data ← (if decide (wkc > 0) then copy_reply port idx data len
          else Some data);
  Some (Nexx__setbufstat port idx Nex_BUF_EMPTY, data, wkc).

Definition Nexx__FPRDw (port : Nexx__portt) (ADP ADO timeout : Z)
    : option (Nexx__portt * Z) :=
  let w := le_bytes 2 0 in
  '(port, w, _) ← Nexx__FPRD port ADP ADO 2 w timeout;
  Some (port, le_value w).

Definition Nexx__LRW (port : Nexx__portt) (LogAdr len : Z) (data : list Z)
    (timeout : Z) : option (Nexx__portt * list Z * Z) :=
  let '(port, idx) := Nexx__getindex port in
  frame ← tx_frame port idx;
  '(port, frame, _) ← Nexx__setupdatagram port frame Nex_CMD_LRW idx
                        (LO_WORD LogAdr) (HI_WORD LogAdr) len data;
  let port := set_tx_frame port idx frame in
  let '(port, wkc) := Nexx__srconfirm port idx timeout in
  data ← (if decide (wkc > 0) then
            cmd ← reply_command port idx;
            if decide (cmd = Nex_CMD_LRW) then copy_reply port idx data len
            else Some data
          else Some data);
  Some (Nexx__setbufstat port idx Nex_BUF_EMPTY, data, wkc).

Definition Nexx__LRD (port : Nexx__portt) (LogAdr len : Z) (data : list Z)
    (timeout : Z) : option (Nexx__portt * list Z * Z) :=
  let '(port, idx) := Nexx__getindex port in
  frame ← tx_frame port idx;
  '(port, frame, _) ← Nexx__setupdatagram port frame Nex_CMD_LRD idx
                        (LO_WORD LogAdr) (HI_WORD LogAdr) len data;
  let port := set_tx_frame port idx frame in
  let '(port, wkc) := Nexx__srconfirm port idx timeout in
  data ← (if decide (wkc > 0) then
            cmd ← reply_command port idx;
            if decide (cmd = Nex_CMD_LRD) then copy_reply port idx data len
            else Some data
          else Some data);
  Some (Nexx__setbufstat port idx Nex_BUF_EMPTY, data, wkc).

(** [sizeof(DCtime)] is the size of the pointer [int64 *DCtime];
    [sizeof( *DCtime)] is 8.  [DCtO] is a [uint16]. *)
Definition Nexx__LRWDC (port : Nexx__portt) (LogAdr len : Z) (data : list Z)
    (DCrs DCtime timeout : Z) : option (Nexx__portt * list Z * Z * Z) :=
  let '(port, idx) := Nexx__getindex port in
  frame ← tx_frame port idx;
  '(port, frame, _) ← Nexx__setupdatagram port frame Nex_CMD_LRW idx
                        (LO_WORD LogAdr) (HI_WORD LogAdr) len data;
  let DCtE := htoell DCtime in
  '(port, frame, DCtO) ← Nexx__adddatagram port frame Nex_CMD_FRMW idx false
                           DCrs ECT_REG_DCSYSTIME sizeof_ptr DCtE;
  let DCtO := DCtO `mod` 65536 in
  let port := set_tx_frame port idx frame in
  let '(port, wkc) := Nexx__srconfirm port idx timeout in
  '(data, wkc, DCtime) ←
    (if decide (wkc > 0) then
       cmd ← reply_command port idx;
       if decide (cmd = Nex_CMD_LRW) then
         data ← copy_reply port idx data len;
         rx ← rx_frame port idx;
         w ← read_bytes rx (Nex_HEADERSIZE + len) Nex_WKCSIZE;
         DCtE ← read_bytes rx DCtO 8;
         Some (data, memcpy_to_int wkc w, etohll DCtE)
       else Some (data, wkc, DCtime)
     else Some (data, wkc, DCtime));
  Some (Nexx__setbufstat port idx Nex_BUF_EMPTY, data, DCtime, wkc).

(** The frame [Nexx__LRWDC] builds, as a function of its own: an LRW
    datagram, then an FRMW datagram on the system time register of the
    reference slave.  The result is the port, the transmit frame and
    [DCtO]. *)
Definition LRWDC_frame (port : Nexx__portt) (frame : list Z) (idx : Z)
    (LogAdr len : Z) (data : list Z) (DCrs DCtime : Z)
    : option (Nexx__portt * list Z * Z) :=
  '(port, frame, _) ← Nexx__setupdatagram port frame Nex_CMD_LRW idx
                        (LO_WORD LogAdr) (HI_WORD LogAdr) len data;
  let DCtE := htoell DCtime in
  '(port, frame, DCtO) ← Nexx__adddatagram port frame Nex_CMD_FRMW idx false
                           DCrs ECT_REG_DCSYSTIME sizeof_ptr DCtE;
  Some (port, frame, DCtO `mod` 65536).

(** The first half of a single-datagram primitive of command [com]: the
    index is acquired, the frame is built and handed to
    [Nexx__srconfirm].  The result is the port as the transport left it,
    the index and the working counter the transport returned. *)
Definition exchange (port : Nexx__portt) (com ADP ADO len : Z)
    (data : list Z) (timeout : Z) : option (Nexx__portt * Z * Z) :=
  let '(port, idx) := Nexx__getindex port in
  frame ← tx_frame port idx;
  '(port, frame, _) ← Nexx__setupdatagram port frame com idx ADP ADO len data;
  let port := set_tx_frame port idx frame in
  let '(port, wkc) := Nexx__srconfirm port idx timeout in
  Some (port, idx, wkc).

(** The same for [Nexx__LRWDC]; [DCtO] is returned as well. *)
Definition exchange_dc (port : Nexx__portt) (LogAdr len : Z) (data : list Z)
    (DCrs DCtime timeout : Z) : option (Nexx__portt * Z * Z * Z) :=
  let '(port, idx) := Nexx__getindex port in
  frame ← tx_frame port idx;
  '(port, frame, DCtO) ← LRWDC_frame port frame idx LogAdr len data DCrs DCtime;
  let port := set_tx_frame port idx frame in
  let '(port, wkc) := Nexx__srconfirm port idx timeout in
  Some (port, idx, DCtO, wkc).

End Primitives.

(** The remaining primitives of ethercatbase.c.  The write primitives
    return the working counter only; the read primitives copy the reply
    into [data] when the working counter is positive. *)
Section OtherPrimitives.
Context `{NicDrv}.

Definition Nexx__BWR (port : Nexx__portt) (ADP ADO len : Z) (data : list Z)
    (timeout : Z) : option (Nexx__portt * Z) :=
  let '(port, idx) := Nexx__getindex port in
  frame ← tx_frame port idx;
  '(port, frame, _) ← Nexx__setupdatagram port frame Nex_CMD_BWR idx
                        ADP ADO len data;
  let port := set_tx_frame port idx frame in
  let '(port, wkc) := Nexx__srconfirm port idx timeout in
  Some (Nexx__setbufstat port idx Nex_BUF_EMPTY, wkc).

Definition Nexx__BRD (port : Nexx__portt) (ADP ADO len : Z) (data : list Z)
    (timeout : Z) : option (Nexx__portt * list Z * Z) :=
  let '(port, idx) := Nexx__getindex port in
  frame ← tx_frame port idx;
  '(port, frame, _) ← Nexx__setupdatagram port frame Nex_CMD_BRD idx
                        ADP ADO len data;
  let port := set_tx_frame port idx frame in
  let '(port, wkc) := Nexx__srconfirm port idx timeout in
  data ← (if decide (wkc > 0) then copy_reply port idx data len
          else Some data);
  Some (Nexx__setbufstat port idx Nex_BUF_EMPTY, data, wkc).

Definition Nexx__ARMW (port : Nexx__portt) (ADP ADO len : Z) (data : list Z)
    (timeout : Z) : option (Nexx__portt * list Z * Z) :=
  let '(port, idx) := Nexx__getindex port in
  frame ← tx_frame port idx;
  '(port, frame, _) ← Nexx__setupdatagram port frame Nex_CMD_ARMW idx
                        ADP ADO len data;
  let port := set_tx_frame port idx frame in
  let '(port, wkc) := Nexx__srconfirm port idx timeout in
  data ← (if decide (wkc > 0) then copy_reply port idx data len
          else Some data);
  Some (Nexx__setbufstat port idx Nex_BUF_EMPTY, data, wkc).

Definition Nexx__FRMW (port : Nexx__portt) (ADP ADO len : Z) (data : list Z)
    (timeout : Z) : option (Nexx__portt * list Z * Z) :=
  let '(port, idx) := Nexx__getindex port in
  frame ← tx_frame port idx;
  '(port, frame, _) ← Nexx__setupdatagram port frame Nex_CMD_FRMW idx
                        ADP ADO len data;
  let port := set_tx_frame port idx frame in
  let '(port, wkc) := Nexx__srconfirm port idx timeout in
  data ← (if decide (wkc > 0) then copy_reply port idx data len
          else Some data);
  Some (Nexx__setbufstat port idx Nex_BUF_EMPTY, data, wkc).

Definition Nexx__APWR (port : Nexx__portt) (ADP ADO len : Z) (data : list Z)
    (timeout : Z) : option (Nexx__portt * Z) :=
  let '(port, idx) := Nexx__getindex port in
  frame ← tx_frame port idx;
  '(port, frame, _) ← Nexx__setupdatagram port frame Nex_CMD_APWR idx
                        ADP ADO len data;
  let port := set_tx_frame port idx frame in
  let '(port, wkc) := Nexx__srconfirm port idx timeout in
  Some (Nexx__setbufstat port idx Nex_BUF_EMPTY, wkc).

(** [sizeof(data)] is 2 and [&data] addresses the two bytes of the
    [uint16] argument, in host order. *)
Definition Nexx__APWRw (port : Nexx__portt) (ADP ADO data timeout : Z)
    : option (Nexx__portt * Z) :=
  Nexx__APWR port ADP ADO 2 (le_bytes 2 data) timeout.

Definition Nexx__FPWR (port : Nexx__portt) (ADP ADO len : Z) (data : list Z)
    (timeout : Z) : option (Nexx__portt * Z) :=
  let '(port, idx) := Nexx__getindex port in
  frame ← tx_frame port idx;
  '(port, frame, _) ← Nexx__setupdatagram port frame Nex_CMD_FPWR idx
                        ADP ADO len data;
  let port := set_tx_frame port idx frame in
  let '(port, wkc) := Nexx__srconfirm port idx timeout in
  Some (Nexx__setbufstat port idx Nex_BUF_EMPTY, wkc).

Definition Nexx__FPWRw (port : Nexx__portt) (ADP ADO data timeout : Z)
    : option (Nexx__portt * Z) :=
  Nexx__FPWR port ADP ADO 2 (le_bytes 2 data) timeout.

Definition Nexx__LWR (port : Nexx__portt) (LogAdr len : Z) (data : list Z)
    (timeout : Z) : option (Nexx__portt * Z) :=
  let '(port, idx) := Nexx__getindex port in
  frame ← tx_frame port idx;
  '(port, frame, _) ← Nexx__setupdatagram port frame Nex_CMD_LWR idx
                        (LO_WORD LogAdr) (HI_WORD LogAdr) len data;
  let port := set_tx_frame port idx frame in
  let '(port, wkc) := Nexx__srconfirm port idx timeout in
  Some (Nexx__setbufstat port idx Nex_BUF_EMPTY, wkc).

(** The steps of a single-datagram primitive up to the call of
    [Nexx__srconfirm]: the result is the port and the index that are
    handed to the transport. *)
Definition request (port : Nexx__portt) (com ADP ADO len : Z) (data : list Z)
    : option (Nexx__portt * Z) :=
  let '(port, idx) := Nexx__getindex port in
  frame ← tx_frame port idx;
  '(port, frame, _) ← Nexx__setupdatagram port frame com idx ADP ADO len data;
  Some (set_tx_frame port idx frame, idx).

(** The primitives by shape, each with the command it sends. *)
Definition write_prims
    : list ((Nexx__portt → Z → Z → Z → list Z → Z → option (Nexx__portt * Z)) * Z) :=
  [(Nexx__BWR, Nex_CMD_BWR); (Nexx__APWR, Nex_CMD_APWR);
   (Nexx__FPWR, Nex_CMD_FPWR)].

Definition read_prims
    : list ((Nexx__portt → Z → Z → Z → list Z → Z
             → option (Nexx__portt * list Z * Z)) * Z) :=
  [(Nexx__BRD, Nex_CMD_BRD); (Nexx__APRD, Nex_CMD_APRD);
   (Nexx__ARMW, Nex_CMD_ARMW); (Nexx__FRMW, Nex_CMD_FRMW);
   (Nexx__FPRD, Nex_CMD_FPRD)].

Definition logical_read_prims
    : list ((Nexx__portt → Z → Z → list Z → Z
             → option (Nexx__portt * list Z * Z)) * Z) :=
  [(Nexx__LRD, Nex_CMD_LRD); (Nexx__LRW, Nex_CMD_LRW)].

Definition word_write_prims
    : list ((Nexx__portt → Z → Z → Z → Z → option (Nexx__portt * Z)) * Z) :=
  [(Nexx__APWRw, Nex_CMD_APWR); (Nexx__FPWRw, Nex_CMD_FPWR)].

Definition word_read_prims
    : list ((Nexx__portt → Z → Z → Z → option (Nexx__portt * Z)) * Z) :=
  [(Nexx__APRDw, Nex_CMD_APRD); (Nexx__FPRDw, Nex_CMD_FPRD)].

End OtherPrimitives.

(** ** Vocabulary of the properties *)

Definition disjoint (a n b m : Z) : Prop := a + n ≤ b ∨ b + m ≤ a.

(** What [Nexx__writedatagramdata] leaves in the payload region. *)
Definition payload (com len : Z) (data : list Z) : list Z :=
  if is_read_cmd com then replicate (Z.to_nat len) 0
  else take (Z.to_nat len) data.

(** The commands whose payload [Nexx__writedatagramdata] zero-fills. *)
Definition read_cmds : list Z :=
  [Nex_CMD_NOP; Nex_CMD_APRD; Nex_CMD_FPRD; Nex_CMD_BRD; Nex_CMD_LRD].

(** A [uint16] field of the frame, decoded. *)
Definition field16 (frame : list Z) (off : Z) : option Z :=
  etohs <$> read_bytes frame off 2.

(** The dlength word of a datagram of payload length [len]. *)
Definition dl_val (len : Z) (more : bool) : Z :=
  if more then Z.lor len Nex_DATAGRAMFOLLOWS else len.

(** The arguments of one [Nexx__setupdatagram] or [Nexx__adddatagram] call. *)
Record datagram : Type := mk_datagram {
  dg_com : Z;
  dg_more : bool;
  dg_ADP : Z;
  dg_ADO : Z;
  dg_len : Z;
  dg_data : list Z
}.

(** [Nexx__adddatagram] once for each element of [ds], in order. *)
Fixpoint add_datagrams (port : Nexx__portt) (frame : list Z) (idx : Z)
    (ds : list datagram) : option (Nexx__portt * list Z) :=
  match ds with
  | [] => Some (port, frame)
  | d :: ds' =>
      '(port, frame, _) ← Nexx__adddatagram port frame (dg_com d) idx (dg_more d)
                            (dg_ADP d) (dg_ADO d) (dg_len d) (dg_data d);
      add_datagrams port frame idx ds'
  end.

(** One [Nexx__setupdatagram] call for [d0] followed by one
    [Nexx__adddatagram] call for each element of [ds]. *)
Definition build_frame (port : Nexx__portt) (frame : list Z) (idx : Z)
    (d0 : datagram) (ds : list datagram) : option (Nexx__portt * list Z) :=
  '(port, frame, _) ← Nexx__setupdatagram port frame (dg_com d0) idx
                        (dg_ADP d0) (dg_ADO d0) (dg_len d0) (dg_data d0);
  add_datagrams port frame idx ds.

(** Bytes the datagrams take in the frame: sub-header, payload and working
    counter of each. *)
Definition area (ds : list datagram) : Z :=
  foldr (λ d acc, 12 + dg_len d + acc) 0 ds.

(** Sum of the payload lengths. *)
Definition sum_len (ds : list datagram) : Z :=
  foldr (λ d acc, dg_len d + acc) 0 ds.

(** Offset in the transmit frame of the command byte of datagram [j]. *)
Definition dg_off (ds : list datagram) (j : nat) : Z := 16 + area (take j ds).

(** Whether the code leaves bit 15 set in the dlength of datagram [j], when
    [ds] are the datagrams that were added after the first. *)
Definition expected_more (ds : list datagram) (j : nat) : bool :=
  match j with
  | O => bool_decide (ds ≠ [])
  | S j' => default false (dg_more <$> ds !! j')
  end.

(** The callers' convention for [more]: [TRUE] on every
    [Nexx__adddatagram] call but the last. *)
Definition more_on_all_but_last (ds : list datagram) : Prop :=
  dg_more <$> ds
  = replicate (pred (length ds)) true ++ replicate (min 1 (length ds)) false.

Definition wf_datagram (d : datagram) : Prop :=
  0 ≤ dg_len d < 65536
  ∧ (is_read_cmd (dg_com d) = false → dg_len d ≤ Z.of_nat (length (dg_data d))).

Definition frame_inv (port : Nexx__portt) (frame : list Z) (idx : Z)
    (d0 : datagram) (ds : list datagram) : Prop :=
  get_txbuflength port idx = Some (16 + area (d0 :: ds))
  ∧ field16 frame 14 = Some (Nex_ECATTYPE + area (d0 :: ds))
  ∧ ∀ j d, (d0 :: ds) !! j = Some d →
      field16 frame (dg_off (d0 :: ds) j + 6)
      = Some (dl_val (dg_len d) (expected_more ds j)).

(** Datagram [d] of transaction [idx] lies in [frame] with its command
    byte at [off]: command, index, ADP and ADO, then, after the dlength and
    IRQ words, the payload and a zeroed working counter. *)
Definition datagram_at (frame : list Z) (off idx : Z) (d : datagram) : Prop :=
  read_bytes frame off 6
  = Some ([dg_com d; idx] ++ htoes (dg_ADP d) ++ htoes (dg_ADO d))
  ∧ read_bytes frame (off + 10) (dg_len d)
    = Some (payload (dg_com d) (dg_len d) (dg_data d))
  ∧ read_bytes frame (off + 10 + dg_len d) 2 = Some [0; 0].

(** The port [port] with [frame] in transmit slot [idx] and
    [txbuflength[idx] = txlen]; everything else as in [port]. *)
Definition staged (port : Nexx__portt) (idx : Z) (frame : list Z) (txlen : Z)
    : Nexx__portt :=
  mk_port (<[Z.to_nat idx := frame]> (txbuf port)) (rxbuf port)
          (<[Z.to_nat idx := txlen]> (txbuflength port)) (bufstat port).

(** The frame builder called the way the primitives call it, on the
    transmit buffer of slot [idx] itself ([frame = &(port->txbuf[idx])]):
    the frame is read from the slot, built, and is the content of the slot
    afterwards. *)
Definition build_in_slot (port : Nexx__portt) (idx : Z) (d0 : datagram)
    (ds : list datagram) : option Nexx__portt :=
  frame ← tx_frame port idx;
  '(port, frame) ← build_frame port frame idx d0 ds;
  Some (set_tx_frame port idx frame).

(** [p2] is [p1] with a frame of one datagram staged in slot [idx]: the
    length word, the eight bytes [hdr] of command, index, address and
    dlength, the [len] payload bytes [pay] and a zeroed working counter;
    [txbuflength[idx]] is [28 + len], the end of that working counter. *)
Definition sends (p1 p2 : Nexx__portt) (idx : Z) (hdr : list Z) (len : Z)
    (pay : list Z) : Prop :=
  ∃ frame,
    p2 = staged p1 idx frame (28 + len)
    ∧ read_bytes frame 14 2 = Some (htoes (Nex_ECATTYPE + 12 + len))
    ∧ read_bytes frame 16 8 = Some hdr
    ∧ read_bytes frame 26 len = Some pay
    ∧ read_bytes frame (26 + len) 2 = Some [0; 0].

(** ** Example states *)

(** A port of [Nex_MAXBUF] slots with [Nex_BUFSIZE]-byte buffers, every
    buffer byte equal to [fill]; used to run the code on concrete inputs. *)
Definition Nex_MAXBUF : nat := 16.
Definition Nex_BUFSIZE : nat := 1518.

Definition filled_frame (fill : Z) : list Z := replicate Nex_BUFSIZE fill.

Definition filled_port (fill : Z) : Nexx__portt :=
  mk_port (replicate Nex_MAXBUF (filled_frame fill))
          (replicate Nex_MAXBUF (filled_frame fill))
          (replicate Nex_MAXBUF 0) (replicate Nex_MAXBUF 0).

(** The same port when every slot holds a frame of [txlen] bytes. *)
Definition sent_port (fill txlen : Z) : Nexx__portt :=
  mk_port (replicate Nex_MAXBUF (filled_frame fill))
          (replicate Nex_MAXBUF (filled_frame fill))
          (replicate Nex_MAXBUF txlen) (replicate Nex_MAXBUF 0).

Definition lrw_dg : datagram :=
  mk_datagram Nex_CMD_LRW false 0 1 8 [1; 2; 3; 4; 5; 6; 7; 8].
Definition frmw_dg (more : bool) : datagram :=
  mk_datagram Nex_CMD_FRMW more 0x1000 ECT_REG_DCSYSTIME 8 (htoell 258).

(** A transport that always hands out slot [idx] and answers every frame
    with the frame [rx] and the working counter [wkc]. *)
Definition canned_nic (idx : Z) (rx : list Z) (wkc : Z) : NicDrv := {|
  Nexx__getindex port := (port, idx);
  Nexx__srconfirm port i _ :=
    (mk_port (txbuf port) (<[Z.to_nat i := rx]> (rxbuf port))
             (txbuflength port) (bufstat port), wkc);
  Nexx__setbufstat port i st :=
    mk_port (txbuf port) (rxbuf port) (txbuflength port)
            (<[Z.to_nat i := st]> (bufstat port))
|}.

(** Reply to the frame of [Nexx__LRWDC] with an eight-byte LRW payload: the
    frame as sent, without the Ethernet header, with the payloads filled in
    by the slaves, the working counter of the LRW datagram at 3 and that of
    the FRMW datagram at 1. *)
Definition lrwdc_reply (cmd : Z) : list Z :=
  htoes 0x1028
  ++ [cmd; 3] ++ htoes 0 ++ htoes 1 ++ htoes 0x8008 ++ [0; 0]
  ++ [11; 12; 13; 14; 15; 16; 17; 18] ++ htoes 3
  ++ [Nex_CMD_FRMW; 3] ++ htoes 0x1000 ++ htoes ECT_REG_DCSYSTIME
  ++ htoes 8 ++ [0; 0]
  ++ htoell 1000 ++ htoes 1
  ++ replicate 1476 0.

(** Reply to the frame that [Nexx__LRWDC] builds where pointers are four
    bytes: the FRMW datagram has a four-byte payload, here the low half of
    the system time 1000, followed by its working counter 1. *)
Definition lrwdc_reply_ilp32 : list Z :=
  htoes 0x1024
  ++ [Nex_CMD_LRW; 3] ++ htoes 0 ++ htoes 1 ++ htoes 0x8008 ++ [0; 0]
  ++ [11; 12; 13; 14; 15; 16; 17; 18] ++ htoes 3
  ++ [Nex_CMD_FRMW; 3] ++ htoes 0x1000 ++ htoes ECT_REG_DCSYSTIME
  ++ htoes 4 ++ [0; 0]
  ++ le_bytes 4 1000 ++ htoes 1
  ++ replicate 1480 0.

(** * Properties *)

(** ** Byte order and buffers *)

Lemma le_bytes_length n v : length (le_bytes n v) = n.
Proof. revert v; induction n as [|n IH]; intros v; simpl; [done | by rewrite IH]. Qed.

Lemma le_value_le_bytes n v :
  le_value (le_bytes n v) = v `mod` 256 ^ Z.of_nat n.
Proof.
  revert v; induction n as [|n IH]; intros v.
  - simpl. by rewrite Z.mod_1_r.
  - cbn [le_bytes le_value]. rewrite IH, Nat2Z.inj_succ, Z.pow_succ_r by lia.
    rewrite Z.rem_mul_r by lia. lia.
Qed.

Lemma etohs_htoes v : etohs (htoes v) = v `mod` 65536.
Proof. unfold etohs, htoes. by rewrite le_value_le_bytes. Qed.

Lemma etohs_htoes_uint16 v : uint16 v → etohs (htoes v) = v.
Proof. intros Hv. rewrite etohs_htoes. apply Z.mod_small, Hv. Qed.

Lemma write_bytes_Some buf off bs :
  0 ≤ off → off + Z.of_nat (length bs) ≤ Z.of_nat (length buf) →
  write_bytes buf off bs = Some (list_inserts (Z.to_nat off) bs buf).
Proof. intros ??. unfold write_bytes. by rewrite decide_True by lia. Qed.

Lemma write_bytes_inv buf off bs buf' :
  write_bytes buf off bs = Some buf' →
  0 ≤ off ∧ off + Z.of_nat (length bs) ≤ Z.of_nat (length buf)
  ∧ buf' = list_inserts (Z.to_nat off) bs buf.
Proof. unfold write_bytes. destruct (decide _) as [[??]|]; intros [= <-]; auto. Qed.

Lemma read_bytes_length buf off n bs :
  read_bytes buf off n = Some bs → Z.of_nat (length bs) = n.
Proof.
  unfold read_bytes. case_decide; [|done]. intros [= <-].
  rewrite length_take, length_drop. lia.
Qed.

Lemma read_bytes_lookup buf off n bs :
  read_bytes buf off n = Some bs ↔
  0 ≤ off ∧ 0 ≤ n ∧ off + n ≤ Z.of_nat (length buf) ∧ Z.of_nat (length bs) = n
  ∧ ∀ i : nat, (i < length bs)%nat → bs !! i = buf !! (Z.to_nat off + i)%nat.
Proof.
  unfold read_bytes. split.
  - case_decide; [|done]. intros [= <-]. repeat split; try lia.
    + rewrite length_take, length_drop. lia.
    + intros i Hi. rewrite length_take in Hi.
      rewrite lookup_take_lt, lookup_drop by lia. done.
  - intros (? & ? & ? & Hlen & Hi). rewrite decide_True by lia. f_equal.
    apply list_eq. intros i. destruct (decide (i < length bs)%nat).
    + rewrite lookup_take_lt, lookup_drop by lia. symmetry. by apply Hi.
    + rewrite lookup_take_ge by lia. symmetry. apply lookup_ge_None. lia.
Qed.

Lemma read_write_same buf off bs buf' :
  write_bytes buf off bs = Some buf' →
  read_bytes buf' off (Z.of_nat (length bs)) = Some bs.
Proof.
  intros (? & ? & ->)%write_bytes_inv. apply read_bytes_lookup.
  rewrite length_inserts. repeat split; try lia.
  intros i Hi. rewrite list_lookup_inserts by lia. f_equal. lia.
Qed.

Lemma read_write_other buf off bs buf' off2 n :
  write_bytes buf off bs = Some buf' →
  disjoint off2 n off (Z.of_nat (length bs)) →
  read_bytes buf' off2 n = read_bytes buf off2 n.
Proof.
  intros (? & ? & ->)%write_bytes_inv Hd. unfold read_bytes.
  rewrite length_inserts. case_decide; [|done]. f_equal.
  apply list_eq. intros i. rewrite !lookup_take. case_decide; [|done].
  rewrite !lookup_drop. destruct Hd.
  - apply list_lookup_inserts_lt. lia.
  - apply list_lookup_inserts_ge. lia.
Qed.

Lemma read_bytes_app buf off n m a b :
  read_bytes buf off n = Some a → read_bytes buf (off + n) m = Some b →
  read_bytes buf off (n + m) = Some (a ++ b).
Proof.
  intros (? & ? & ? & Ha & Hai)%read_bytes_lookup
         (? & ? & ? & Hb & Hbi)%read_bytes_lookup.
  apply read_bytes_lookup. rewrite length_app. repeat split; try lia.
  intros i Hi. destruct (decide (i < length a)%nat).
  - rewrite lookup_app_l by done. by apply Hai.
  - rewrite lookup_app_r by lia. rewrite Hbi by lia. f_equal. lia.
Qed.

Lemma read_write_same' buf off bs buf' off' n :
  write_bytes buf off bs = Some buf' →
  off' = off → n = Z.of_nat (length bs) →
  read_bytes buf' off' n = Some bs.
Proof. intros H -> ->. by apply (read_write_same buf). Qed.

Lemma write_bytes_is_Some buf off bs :
  0 ≤ off → off + Z.of_nat (length bs) ≤ Z.of_nat (length buf) →
  ∃ buf', write_bytes buf off bs = Some buf' ∧ length buf' = length buf.
Proof.
  intros ??. eexists. split; [by apply write_bytes_Some|]. apply length_inserts.
Qed.

Lemma htoes_length v : length (htoes v) = 2%nat.
Proof. done. Qed.

(** ** The frame builder, store by store *)

Ltac unfold_consts :=
  unfold ETH_HEADERSIZE, Nex_HEADERSIZE, Nex_ELENGTHSIZE, Nex_WKCSIZE,
    Nex_CMDOFFSET, Nex_ECATTYPE, off_elength, off_command, off_index,
    off_ADP, off_ADO, off_dlength, off_irpt in *.

Ltac side := rewrite ?htoes_length; simpl length; unfold disjoint in *; lia.

(** Run the next store of the goal, naming the buffer it yields. *)
Ltac step_write f E L :=
  match goal with
  | |- context [write_bytes ?b ?o ?bs] =>
      destruct (write_bytes_is_Some b o bs) as (f & E & L);
      [ side | side | rewrite E; cbn [mbind option_bind] ]
  end.

(** Move a load back through the stores that do not overlap it. *)
Ltac read_back :=
  repeat match goal with
  | H : write_bytes ?b ?o ?bs = Some ?f |- context [read_bytes ?f ?o2 ?n] =>
      rewrite (read_write_other b o bs f o2 n H) by side
  end.

Ltac read_here :=
  match goal with
  | H : write_bytes ?b ?o ?bs = Some ?f |- read_bytes ?f ?o2 ?n = Some _ =>
      apply (read_write_same' b o bs f o2 n H); side
  end.

Lemma payload_length com len data :
  0 ≤ len → (is_read_cmd com = false → len ≤ Z.of_nat (length data)) →
  Z.of_nat (length (payload com len data)) = len.
Proof.
  intros ? Hd. unfold payload. destruct (is_read_cmd com).
  - rewrite length_replicate. lia.
  - rewrite length_take. specialize (Hd eq_refl). lia.
Qed.

Lemma writedatagramdata_is_Some frame off com len data :
  0 ≤ off → 0 ≤ len → off + len ≤ Z.of_nat (length frame) →
  (is_read_cmd com = false → len ≤ Z.of_nat (length data)) →
  ∃ frame', Nexx__writedatagramdata frame off com len data = Some frame'
    ∧ length frame' = length frame
    ∧ read_bytes frame' off len = Some (payload com len data)
    ∧ ∀ off2 n, disjoint off2 n off len →
        read_bytes frame' off2 n = read_bytes frame off2 n.
Proof.
  intros Hoff Hlen Hfit Hdata.
  pose proof (payload_length com len data Hlen Hdata) as Hpl.
  unfold Nexx__writedatagramdata. case_decide as Hpos.
  - assert (∃ frame', write_bytes frame off (payload com len data) = Some frame'
              ∧ length frame' = length frame) as (frame' & Hw & Hl).
    { apply write_bytes_is_Some; lia. }
    exists frame'. split; [|split; [done|split]].
    + unfold payload in Hw. destruct (is_read_cmd com) eqn:Hr.
      * unfold memset0. by rewrite decide_True by lia.
      * unfold memcpy, read_bytes. specialize (Hdata eq_refl).
        rewrite decide_True by lia. by rewrite drop_0.
    + by apply (read_write_same' _ _ _ _ _ _ Hw).
    + intros off2 n Hd. apply (read_write_other _ _ _ _ _ _ Hw).
      by rewrite Hpl.
  - exists frame. assert (len = 0) as -> by lia. split; [done|split; [done|split]].
    + apply read_bytes_lookup. unfold payload.
      destruct (is_read_cmd com); simpl; repeat split; try lia; intros; lia.
    + done.
Qed.

Lemma setupdatagram_spec port frame com idx ADP ADO len data :
  0 ≤ len → 28 + len ≤ Z.of_nat (length frame) →
  (is_read_cmd com = false → len ≤ Z.of_nat (length data)) →
  0 ≤ idx < Z.of_nat (length (txbuflength port)) →
  ∃ frame',
    Nexx__setupdatagram port frame com idx ADP ADO len data
    = Some (mk_port (txbuf port) (rxbuf port)
              (<[Z.to_nat idx := 28 + len]> (txbuflength port)) (bufstat port),
            frame', 0)
    ∧ length frame' = length frame
    ∧ read_bytes frame' 14 2 = Some (htoes (Nex_ECATTYPE + 12 + len))
    ∧ read_bytes frame' 16 1 = Some [com]
    ∧ read_bytes frame' 17 1 = Some [idx]
    ∧ read_bytes frame' 18 2 = Some (htoes ADP)
    ∧ read_bytes frame' 20 2 = Some (htoes ADO)
    ∧ read_bytes frame' 22 2 = Some (htoes len)
    ∧ read_bytes frame' 26 len = Some (payload com len data)
    ∧ read_bytes frame' (26 + len) 2 = Some [0; 0]
    ∧ ∀ off n, disjoint off n 14 10 → disjoint off n 26 (len + 2) →
        read_bytes frame' off n = read_bytes frame off n.
Proof.
  intros Hlen Hfit Hdata Hidx.
  unfold Nexx__setupdatagram. cbv zeta. unfold_consts.
  step_write f1 E1 L1. step_write f2 E2 L2. step_write f3 E3 L3.
  step_write f4 E4 L4. step_write f5 E5 L5. step_write f6 E6 L6.
  destruct (writedatagramdata_is_Some f6 (14 + 12) com len data)
    as (f7 & E7 & L7 & R7 & O7); [lia..|done|].
  rewrite E7; cbn [mbind option_bind].
  step_write f8 E8 L8. step_write f9 E9 L9.
  unfold set_txbuflength. rewrite decide_True by done. cbn [mbind option_bind].
  exists f9. replace (14 + 12 + 2 + len) with (28 + len) by lia.
  split; [done|]. split; [congruence|].
  repeat split.
  - read_back. rewrite O7 by side. read_back. read_here.
  - read_back. rewrite O7 by side. read_back. read_here.
  - read_back. rewrite O7 by side. read_back. read_here.
  - read_back. rewrite O7 by side. read_back. read_here.
  - read_back. rewrite O7 by side. read_back. read_here.
  - read_back. rewrite O7 by side. read_here.
  - read_back. replace 26 with (14 + 12) by lia. exact R7.
  - replace 2 with (1 + 1) by lia.
    apply (read_bytes_app _ _ _ _ [0] [0]).
    + read_back. read_here.
    + read_here.
  - intros off n D1 D2. read_back. rewrite O7 by side. by read_back.
Qed.

Lemma read_bytes_is_Some buf off n :
  0 ≤ off → 0 ≤ n → off + n ≤ Z.of_nat (length buf) →
  is_Some (read_bytes buf off n).
Proof. intros ???. unfold read_bytes. by rewrite decide_True by lia. Qed.

Lemma get_txbuflength_inv port idx v :
  get_txbuflength port idx = Some v →
  0 ≤ idx < Z.of_nat (length (txbuflength port)).
Proof.
  unfold get_txbuflength. destruct (decide _); [|done].
  intros ?%lookup_lt_Some. lia.
Qed.

Lemma adddatagram_spec port frame com idx more ADP ADO len data prev el dl :
  get_txbuflength port idx = Some prev →
  24 ≤ prev < 65536 →
  0 ≤ len → prev + 12 + len ≤ Z.of_nat (length frame) →
  (is_read_cmd com = false → len ≤ Z.of_nat (length data)) →
  read_bytes frame 14 2 = Some el →
  read_bytes frame 22 2 = Some dl →
  ∃ frame',
    Nexx__adddatagram port frame com idx more ADP ADO len data
    = Some (mk_port (txbuf port) (rxbuf port)
              (<[Z.to_nat idx := prev + 12 + len]> (txbuflength port))
              (bufstat port),
            frame', prev - 4)
    ∧ length frame' = length frame
    ∧ read_bytes frame' 14 2 = Some (htoes (etohs el + 12 + len))
    ∧ read_bytes frame' 22 2 = Some (htoes (Z.lor (etohs dl) Nex_DATAGRAMFOLLOWS))
    ∧ read_bytes frame' prev 1 = Some [com]
    ∧ read_bytes frame' (prev + 1) 1 = Some [idx]
    ∧ read_bytes frame' (prev + 2) 2 = Some (htoes ADP)
    ∧ read_bytes frame' (prev + 4) 2 = Some (htoes ADO)
    ∧ read_bytes frame' (prev + 6) 2
      = Some (htoes (if more then Z.lor len Nex_DATAGRAMFOLLOWS else len))
    ∧ read_bytes frame' (prev + 10) len = Some (payload com len data)
    ∧ read_bytes frame' (prev + 10 + len) 2 = Some [0; 0]
    ∧ ∀ off n, disjoint off n 14 2 → disjoint off n 22 2 →
        disjoint off n prev 8 → disjoint off n (prev + 10) (len + 2) →
        read_bytes frame' off n = read_bytes frame off n.
Proof.
  intros Hprev Hrange Hlen Hfit Hdata Hel Hdl.
  pose proof (get_txbuflength_inv _ _ _ Hprev) as Hidx.
  unfold Nexx__adddatagram. rewrite Hprev. cbn [mbind option_bind]. cbv zeta.
  rewrite (Z.mod_small prev) by lia. unfold_consts.
  replace (14 + 0) with 14 by lia. replace (14 + 8) with 22 by lia.
  rewrite Hel. cbn [mbind option_bind].
  step_write f1 E1 L1.
  rewrite (read_write_other _ _ _ _ 22 2 E1) by side.
  rewrite Hdl. cbn [mbind option_bind].
  step_write f2 E2 L2. step_write f3 E3 L3. step_write f4 E4 L4.
  step_write f5 E5 L5. step_write f6 E6 L6.
  assert (Z.of_nat (length
            (if more then htoes (Z.lor len Nex_DATAGRAMFOLLOWS) else htoes len))
          = 2) as Hml by (by destruct more).
  destruct (write_bytes_is_Some f6 (prev - 2 + 8)
              (if more then htoes (Z.lor len Nex_DATAGRAMFOLLOWS) else htoes len))
    as (f7 & E7 & L7); [lia | lia |].
  rewrite E7; cbn [mbind option_bind].
  destruct (writedatagramdata_is_Some f7 (prev + 12 - 2) com len data)
    as (f8 & E8 & L8 & R8 & O8); [lia..|done|].
  rewrite E8; cbn [mbind option_bind].
  step_write f9 E9 L9. step_write f10 E10 L10.
  unfold set_txbuflength. rewrite decide_True by done. cbn [mbind option_bind].
  exists f10.
  replace (prev + 12 - 2 + 2 + len) with (prev + 12 + len) by lia.
  replace (prev + 12 - 2 - 14) with (prev - 4) by lia.
  split; [done|]. split; [congruence|].
  assert (∀ off n, disjoint off n (prev + 10) (len + 2) →
            read_bytes f10 off n = read_bytes f7 off n) as O10.
  { intros off n D. read_back. apply O8. side. }
  repeat split.
  - rewrite O10 by side. rewrite (read_write_other _ _ _ _ _ _ E7) by side.
    read_back. read_here.
  - rewrite O10 by side. rewrite (read_write_other _ _ _ _ _ _ E7) by side.
    read_back. read_here.
  - rewrite O10 by side. rewrite (read_write_other _ _ _ _ _ _ E7) by side.
    read_back. read_here.
  - rewrite O10 by side. rewrite (read_write_other _ _ _ _ _ _ E7) by side.
    read_back. read_here.
  - rewrite O10 by side. rewrite (read_write_other _ _ _ _ _ _ E7) by side.
    read_back. read_here.
  - rewrite O10 by side. rewrite (read_write_other _ _ _ _ _ _ E7) by side.
    read_back. read_here.
  - rewrite O10 by side. destruct more; by apply (read_write_same' _ _ _ _ _ _ E7); side.
  - read_back. replace (prev + 10) with (prev + 12 - 2) by lia. exact R8.
  - replace 2 with (1 + 1) by lia.
    apply (read_bytes_app _ _ _ _ [0] [0]).
    + read_back. read_here.
    + read_here.
  - intros off n D1 D2 D3 D4. rewrite O10 by side.
    rewrite (read_write_other _ _ _ _ _ _ E7) by side. by read_back.
Qed.

(** ** Frames of several datagrams *)

Lemma area_app ds1 ds2 : area (ds1 ++ ds2) = area ds1 + area ds2.
Proof. induction ds1 as [|d ds1 IH]; simpl; [done | rewrite IH; lia]. Qed.

Lemma area_nonneg ds : Forall wf_datagram ds → 0 ≤ area ds.
Proof.
  induction 1 as [|d ds [Hd _] _ IH]; simpl; lia.
Qed.

Lemma area_lookup ds j d :
  Forall wf_datagram ds → ds !! j = Some d →
  0 ≤ area (take j ds) ∧ area (take j ds) + 12 + dg_len d ≤ area ds.
Proof.
  intros Hwf Hj. rewrite <-(take_drop_middle ds j d Hj) at 3.
  rewrite area_app. simpl.
  pose proof (area_nonneg (take j ds) (Forall_take _ _ _ Hwf)).
  pose proof (area_nonneg (drop (S j) ds) (Forall_drop _ _ _ Hwf)).
  lia.
Qed.

Lemma add_datagrams_app port frame idx ds1 ds2 :
  add_datagrams port frame idx (ds1 ++ ds2)
  = '(port, frame) ← add_datagrams port frame idx ds1;
    add_datagrams port frame idx ds2.
Proof.
  revert port frame. induction ds1 as [|d ds1 IH]; intros port frame; simpl.
  - done.
  - destruct (Nexx__adddatagram _ _ _ _ _ _ _ _ _) as [[[p f] r]|]; simpl; [|done].
    apply IH.
Qed.

Lemma build_frame_snoc port frame idx d0 ds d :
  build_frame port frame idx d0 (ds ++ [d])
  = '(port, frame) ← build_frame port frame idx d0 ds;
    '(port, frame, _) ← Nexx__adddatagram port frame (dg_com d) idx (dg_more d)
                          (dg_ADP d) (dg_ADO d) (dg_len d) (dg_data d);
    Some (port, frame).
Proof.
  unfold build_frame.
  destruct (Nexx__setupdatagram _ _ _ _ _ _ _ _) as [[[p f] r]|]; simpl; [|done].
  rewrite add_datagrams_app.
  destruct (add_datagrams p f idx ds) as [[p' f']|]; simpl; [|done].
  by destruct (Nexx__adddatagram _ _ _ _ _ _ _ _ _) as [[[p'' f''] r'']|].
Qed.

Lemma follows_testbit l :
  0 ≤ l → Z.testbit Nex_DATAGRAMFOLLOWS l = bool_decide (l = 15).
Proof.
  intros Hl. change Nex_DATAGRAMFOLLOWS with (2 ^ 15).
  rewrite Z.pow2_bits_eqb by lia.
  case_bool_decide; [apply Z.eqb_eq | apply Z.eqb_neq]; lia.
Qed.

Lemma lor_follows_uint16 v :
  0 ≤ v < 65536 → 0 ≤ Z.lor v Nex_DATAGRAMFOLLOWS < 65536.
Proof.
  intros [Hv0 Hv]. assert (0 ≤ Z.lor v Nex_DATAGRAMFOLLOWS) as H0.
  { apply Z.lor_nonneg. split; [done|]. by vm_compute. }
  split; [done|]. change 65536 with (2 ^ 16).
  apply (Z.bounded_iff_bits_nonneg 16); [lia | done |].
  intros l Hl. rewrite Z.lor_spec, follows_testbit by lia.
  rewrite bool_decide_false by lia. rewrite orb_false_r.
  revert l Hl. apply (Z.bounded_iff_bits_nonneg 16); [lia | done |].
  by change (2 ^ 16) with 65536.
Qed.

Lemma dl_val_uint16 len more : 0 ≤ len < 65536 → 0 ≤ dl_val len more < 65536.
Proof. intros ?. destruct more; simpl; [by apply lor_follows_uint16 | done]. Qed.

Lemma lor_follows_idemp len more :
  Z.lor (dl_val len more) Nex_DATAGRAMFOLLOWS = dl_val len true.
Proof.
  destruct more; simpl; [|done].
  by rewrite <-Z.lor_assoc, Z.lor_diag.
Qed.

Lemma get_set_txbuflength port idx v :
  0 ≤ idx < Z.of_nat (length (txbuflength port)) →
  get_txbuflength
    (mk_port (txbuf port) (rxbuf port)
       (<[Z.to_nat idx := v]> (txbuflength port)) (bufstat port)) idx
  = Some v.
Proof.
  intros ?. unfold get_txbuflength. rewrite decide_True by lia. simpl.
  apply list_lookup_insert_eq. lia.
Qed.

Lemma field16_read frame off bs :
  read_bytes frame off 2 = Some bs → field16 frame off = Some (etohs bs).
Proof. intros H. unfold field16. by rewrite H. Qed.

Lemma field16_inv frame off v :
  field16 frame off = Some v →
  ∃ bs, read_bytes frame off 2 = Some bs ∧ v = etohs bs.
Proof. unfold field16. intros (bs & ? & ?)%fmap_Some. eauto. Qed.

Lemma setup_frame_inv port frame idx d0 :
  wf_datagram d0 →
  16 + area [d0] ≤ Z.of_nat (length frame) →
  Nex_ECATTYPE + area [d0] < 65536 →
  0 ≤ idx < Z.of_nat (length (txbuflength port)) →
  ∃ port' frame', build_frame port frame idx d0 [] = Some (port', frame')
    ∧ length frame' = length frame
    ∧ length (txbuflength port') = length (txbuflength port)
    ∧ frame_inv port' frame' idx d0 [].
Proof.
  intros [Hlen Hdata] Hfit Hwrap Hidx. simpl in Hfit, Hwrap.
  destruct (setupdatagram_spec port frame (dg_com d0) idx (dg_ADP d0)
              (dg_ADO d0) (dg_len d0) (dg_data d0))
    as (frame' & E & L & Hel & _ & _ & _ & _ & Hdl & _); [lia..|done|done|].
  eexists _, frame'. unfold build_frame. rewrite E. simpl.
  split; [done|]. split; [done|]. split; [simpl; by rewrite length_insert|].
  split; [|split].
  - rewrite get_set_txbuflength by done. f_equal. simpl. lia.
  - rewrite (field16_read _ _ _ Hel). f_equal. unfold area. cbn [foldr].
    rewrite etohs_htoes_uint16; unfold uint16, Nex_ECATTYPE in *; lia.
  - intros [|j] d Hj; [|by destruct j]. injection Hj as <-.
    unfold dg_off. cbn [take area foldr expected_more].
    replace (16 + 0 + 6) with 22 by lia.
    rewrite (field16_read _ _ _ Hdl). f_equal.
    rewrite bool_decide_false by (intros H; by apply H).
    unfold dl_val. apply etohs_htoes_uint16. unfold uint16. lia.
Qed.

Lemma build_frame_inv port frame idx d0 ds :
  Forall wf_datagram (d0 :: ds) →
  16 + area (d0 :: ds) ≤ Z.of_nat (length frame) →
  Nex_ECATTYPE + area (d0 :: ds) < 65536 →
  0 ≤ idx < Z.of_nat (length (txbuflength port)) →
  ∃ port' frame', build_frame port frame idx d0 ds = Some (port', frame')
    ∧ length frame' = length frame
    ∧ length (txbuflength port') = length (txbuflength port)
    ∧ frame_inv port' frame' idx d0 ds.
Proof.
  induction ds as [|d ds IH] using rev_ind; intros Hwf Hfit Hwrap Hidx.
  { apply setup_frame_inv; [by inversion Hwf|done..]. }
  rewrite app_comm_cons in Hwf, Hfit, Hwrap.
  apply Forall_app in Hwf as [Hwf Hd]. rewrite Forall_singleton in Hd.
  rewrite area_app in Hfit, Hwrap. destruct Hd as [Hlen Hdata].
  change (area [d]) with (12 + dg_len d + 0) in Hfit, Hwrap.
  destruct IH as (p1 & f1 & E1 & L1 & T1 & Ha & Hb & Hc); [done|lia..|done|].
  pose proof (area_nonneg _ Hwf) as Hnn.
  assert (28 ≤ 16 + area (d0 :: ds)) as Hprev.
  { inversion Hwf as [|?? [??] Hwf']; subst. pose proof (area_nonneg _ Hwf').
    cbn [area foldr]. fold (area ds). lia. }
  destruct (field16_inv _ _ _ Hb) as (el & Rel & Eel).
  pose proof (Hc 0%nat d0 eq_refl) as Hc0.
  unfold dg_off in Hc0. cbn [take area foldr] in Hc0.
  replace (16 + 0 + 6) with 22 in Hc0 by lia.
  destruct (field16_inv _ _ _ Hc0) as (dl & Rdl & Edl).
  destruct (adddatagram_spec p1 f1 (dg_com d) idx (dg_more d) (dg_ADP d)
              (dg_ADO d) (dg_len d) (dg_data d) (16 + area (d0 :: ds)) el dl)
    as (f2 & E2 & L2 & Hel & Hdl & _ & _ & _ & _ & Hnew & _ & _ & Hother);
    [done | unfold Nex_ECATTYPE in *; lia | lia | lia | done | done | done |].
  rewrite build_frame_snoc, E1. cbn [mbind option_bind]. rewrite E2.
  cbn [mbind option_bind]. eexists _, f2. split; [done|].
  split; [congruence|]. split; [simpl; rewrite length_insert; congruence|].
  assert (Forall wf_datagram (d0 :: ds)) as Hwf0 by done.
  inversion Hwf as [|?? [Hlen0 _] Hwf']; subst.
  split; [|split].
  - rewrite get_set_txbuflength by lia. f_equal.
    rewrite app_comm_cons, area_app. cbn [area foldr]. lia.
  - rewrite (field16_read _ _ _ Hel). f_equal.
    rewrite app_comm_cons, area_app. change (area [d]) with (12 + dg_len d + 0).
    rewrite etohs_htoes_uint16; unfold uint16, Nex_ECATTYPE in *; lia.
  - intros j d' Hj. rewrite app_comm_cons in Hj.
    destruct (decide (j < length (d0 :: ds))%nat) as [Hlt|Hge].
    + rewrite lookup_app_l in Hj by done.
      assert (dg_off ((d0 :: ds) ++ [d]) j = dg_off (d0 :: ds) j) as Hoff.
      { unfold dg_off. by rewrite take_app_le by lia. }
      rewrite app_comm_cons, Hoff.
      destruct j as [|j].
      * injection Hj as <-. unfold dg_off. cbn [take area foldr expected_more].
        replace (16 + 0 + 6) with 22 by lia.
        rewrite (field16_read _ _ _ Hdl). f_equal.
        rewrite bool_decide_true by (by destruct ds).
        rewrite <-Edl, lor_follows_idemp.
        apply etohs_htoes_uint16, dl_val_uint16. lia.
      * destruct (area_lookup _ _ _ Hwf0 Hj) as [Hlo Hhi].
        assert (12 + dg_len d0 ≤ area (take (S j) (d0 :: ds))) as Hfirst.
        { cbn [take area foldr]. fold (area (take j ds)).
          pose proof (area_nonneg (take j ds) (Forall_take _ _ _ Hwf')). lia. }
        assert (0 ≤ dg_len d').
        { eapply Forall_lookup_1 in Hwf0 as [??]; [|done]. lia. }
        unfold field16. unfold dg_off in *.
        rewrite Hother by (unfold disjoint; lia).
        specialize (Hc (S j) d' Hj). unfold field16, dg_off in Hc.
        rewrite Hc. f_equal. f_equal. cbn [expected_more].
        simpl in Hlt. rewrite lookup_app_l by lia. done.
    + assert (j = length (d0 :: ds)) as ->.
      { apply lookup_lt_Some in Hj. rewrite length_app in Hj. simpl in *. lia. }
      rewrite list_lookup_middle in Hj by done. injection Hj as <-.
      rewrite app_comm_cons. unfold dg_off.
      rewrite take_app_length.
      rewrite (field16_read _ _ _ Hnew). f_equal.
      cbn [length expected_more]. rewrite list_lookup_middle by done.
      cbn [fmap option_fmap option_map default]. unfold dl_val.
      destruct (dg_more d).
      * apply etohs_htoes_uint16. by apply lor_follows_uint16.
      * by apply etohs_htoes_uint16.
Qed.

Lemma dl_val_bit15 len more :
  0 ≤ len < 32768 → Z.testbit (dl_val len more) 15 = more.
Proof.
  intros [H0 H]. assert (Z.testbit len 15 = false) as Hbit.
  { revert H. change 32768 with (2 ^ 15).
    rewrite (Z.bounded_iff_bits_nonneg 15) by lia. intros Hb. apply Hb. lia. }
  unfold dl_val. destruct more; [|done].
  rewrite Z.lor_spec, follows_testbit by lia. by rewrite orb_true_r.
Qed.

Lemma ecattype_lor x :
  0 ≤ x < 4096 → Z.lor Nex_ECATTYPE x = Nex_ECATTYPE + x.
Proof.
  intros [H0 H]. assert (Z.land Nex_ECATTYPE x = 0) as Hland.
  { apply Z.bits_inj'. intros n Hn. rewrite Z.land_spec, Z.bits_0.
    change Nex_ECATTYPE with (2 ^ 12). rewrite Z.pow2_bits_eqb by lia.
    destruct (Z.eqb_spec 12 n) as [<-|]; [|done]. rewrite andb_true_l.
    revert H. change 4096 with (2 ^ 12).
    rewrite (Z.bounded_iff_bits_nonneg 12) by lia. intros Hb. apply Hb. lia. }
  by rewrite Z.add_nocarry_lxor, Z.lxor_lor.
Qed.

(** ** Claims on the frame builder *)

(** C5, as amended.  For a payload length [len ≤ 1486] and a frame buffer
    that holds the datagram, [Nexx__setupdatagram] returns 0, sets
    [txbuflength[idx]] to [26 + len + 2], and leaves in bytes 14..15 the
    little-endian word [Nex_ECATTYPE | (12 + len)]: the length counts the
    ten-byte sub-header, the payload and the two-byte working counter. *)
Theorem setupdatagram_length_fields port frame com idx ADP ADO len data :
  0 ≤ len ≤ 1486 →
  28 + len ≤ Z.of_nat (length frame) →
  (is_read_cmd com = false → len ≤ Z.of_nat (length data)) →
  0 ≤ idx < Z.of_nat (length (txbuflength port)) →
  ∃ port' frame',
    Nexx__setupdatagram port frame com idx ADP ADO len data
    = Some (port', frame', 0)
    ∧ get_txbuflength port' idx = Some (26 + len + 2)
    ∧ field16 frame' 14 = Some (Z.lor Nex_ECATTYPE (12 + len)).
Proof.
  intros Hlen Hfit Hdata Hidx.
  destruct (setupdatagram_spec port frame com idx ADP ADO len data)
    as (frame' & E & _ & Hel & _); [lia|done..|].
  eexists _, frame'. split; [exact E|]. split.
  - rewrite get_set_txbuflength by done. f_equal. lia.
  - rewrite (field16_read _ _ _ Hel). f_equal.
    rewrite ecattype_lor by lia.
    rewrite etohs_htoes_uint16; unfold uint16, Nex_ECATTYPE; lia.
Qed.

Lemma setupdatagram_length_fields_witness :
  ∃ port' frame',
    Nexx__setupdatagram (filled_port 0) (filled_frame 0) Nex_CMD_FPWR 3
      0x1001 0x0120 2 [4; 0]
    = Some (port', frame', 0)
    ∧ get_txbuflength port' 3 = Some (26 + 2 + 2)
    ∧ field16 frame' 14 = Some (Z.lor Nex_ECATTYPE (12 + 2)).
Proof.
  apply setupdatagram_length_fields.
  - lia.
  - vm_compute. discriminate.
  - intros _. vm_compute. discriminate.
  - vm_compute. split; [discriminate | reflexivity].
Defined.

(** C5 as stated fails: for [FPWR] with a two-byte payload the word at
    bytes 14..15 decodes to [0x100E], not to [Nex_ECATTYPE | (10 + 2)]. *)
Lemma setupdatagram_elength_counterexample :
  ('(port', frame', _) ← Nexx__setupdatagram (filled_port 0) (filled_frame 0)
                           Nex_CMD_FPWR 3 0x1001 0x0120 2 [4; 0];
   txlen ← get_txbuflength port' 3;
   el ← field16 frame' 14;
   Some (txlen, el)) = Some (26 + 2 + 2, 0x100E)
  ∧ 0x100E ≠ Z.lor Nex_ECATTYPE (10 + 2).
Proof. split; [by vm_compute | by vm_compute]. Qed.

(** C6, as amended.  After [Nexx__setupdatagram] bytes 16..23 of the frame
    are the command, the index, ADP, ADO and the payload length, the three
    words little-endian, and for [len < 32768] bit 15 of the length word
    (more datagrams follow) is clear.  The two IRQ bytes 24..25 are not
    written: they keep what the buffer held before the call. *)
Theorem setupdatagram_subheader port frame com idx ADP ADO len data :
  uint16 ADP → uint16 ADO → 0 ≤ len < 32768 →
  28 + len ≤ Z.of_nat (length frame) →
  (is_read_cmd com = false → len ≤ Z.of_nat (length data)) →
  0 ≤ idx < Z.of_nat (length (txbuflength port)) →
  ∃ port' frame',
    Nexx__setupdatagram port frame com idx ADP ADO len data
    = Some (port', frame', 0)
    ∧ read_bytes frame' 16 8
      = Some [com; idx; ADP `mod` 256; (ADP `div` 256) `mod` 256;
              ADO `mod` 256; (ADO `div` 256) `mod` 256;
              len `mod` 256; (len `div` 256) `mod` 256]
    ∧ field16 frame' 18 = Some ADP
    ∧ field16 frame' 20 = Some ADO
    ∧ field16 frame' 22 = Some len
    ∧ Z.testbit len 15 = false
    ∧ read_bytes frame' 24 2 = read_bytes frame 24 2.
Proof.
  intros HADP HADO Hlen Hfit Hdata Hidx.
  destruct (setupdatagram_spec port frame com idx ADP ADO len data)
    as (frame' & E & _ & _ & Hc & Hi & Hp & Ho & Hl & _ & _ & Hother);
    [lia|done..|].
  eexists _, frame'. split; [exact E|]. repeat split.
  - apply (read_bytes_app _ 16 1 7 [com]); [done|].
    apply (read_bytes_app _ 17 1 6 [idx]); [done|].
    apply (read_bytes_app _ 18 2 4 (htoes ADP)); [done|].
    by apply (read_bytes_app _ 20 2 2 (htoes ADO)).
  - rewrite (field16_read _ _ _ Hp). f_equal. by apply etohs_htoes_uint16.
  - rewrite (field16_read _ _ _ Ho). f_equal. by apply etohs_htoes_uint16.
  - rewrite (field16_read _ _ _ Hl). f_equal. apply etohs_htoes_uint16.
    unfold uint16. lia.
  - by apply (dl_val_bit15 len false).
  - apply Hother; unfold disjoint; lia.
Qed.

Lemma setupdatagram_subheader_witness :
  ∃ port' frame',
    Nexx__setupdatagram (filled_port 0) (filled_frame 0) Nex_CMD_FPWR 3
      0x1001 0x0120 2 [4; 0]
    = Some (port', frame', 0)
    ∧ read_bytes frame' 16 8
      = Some [Nex_CMD_FPWR; 3; 0x1001 `mod` 256; (0x1001 `div` 256) `mod` 256;
              0x0120 `mod` 256; (0x0120 `div` 256) `mod` 256;
              2 `mod` 256; (2 `div` 256) `mod` 256]
    ∧ field16 frame' 18 = Some 0x1001
    ∧ field16 frame' 20 = Some 0x0120
    ∧ field16 frame' 22 = Some 2
    ∧ Z.testbit 2 15 = false
    ∧ read_bytes frame' 24 2 = read_bytes (filled_frame 0) 24 2.
Proof.
  apply setupdatagram_subheader.
  - unfold uint16. lia.
  - unfold uint16. lia.
  - lia.
  - vm_compute. discriminate.
  - intros _. vm_compute. discriminate.
  - vm_compute. split; [discriminate | reflexivity].
Defined.

(** C6 as stated fails on the IRQ bytes: in a buffer that held [0xff]
    there, bytes 24..25 are still [0xff] after the call. *)
Lemma setupdatagram_irq_counterexample :
  ('(_, frame', _) ← Nexx__setupdatagram (filled_port 0xff) (filled_frame 0xff)
                       Nex_CMD_FPWR 3 0x1001 0x0120 2 [4; 0];
   read_bytes frame' 16 10)
  = Some [5; 3; 0x01; 0x10; 0x20; 0x01; 0x02; 0x00; 0xff; 0xff].
Proof. by vm_compute. Qed.

Lemma is_read_cmd_elem com : is_read_cmd com = true ↔ com ∈ read_cmds.
Proof.
  unfold is_read_cmd, read_cmds. rewrite bool_decide_eq_true.
  rewrite !elem_of_cons, elem_of_nil. tauto.
Qed.

Lemma is_read_cmd_not_elem com : is_read_cmd com = false ↔ com ∉ read_cmds.
Proof. rewrite <-is_read_cmd_elem. by destruct (is_read_cmd com). Qed.

Lemma payload_read com len data :
  com ∈ read_cmds → payload com len data = replicate (Z.to_nat len) 0.
Proof. intros H%is_read_cmd_elem. unfold payload. by rewrite H. Qed.

Lemma payload_write com len data :
  com ∉ read_cmds → payload com len data = take (Z.to_nat len) data.
Proof. intros H%is_read_cmd_not_elem. unfold payload. by rewrite H. Qed.

(** C7.  After [Nexx__setupdatagram] the [len] payload bytes at offset 26,
    and after [Nexx__adddatagram] the [len] payload bytes that follow the
    new sub-header, are all zero when the command is NOP, APRD, FPRD, BRD
    or LRD, whatever [data] holds, and are the first [len] bytes of [data]
    for every other command. *)
Theorem payload_region port frame com idx more ADP ADO len data :
  0 ≤ len →
  (com ∉ read_cmds → len ≤ Z.of_nat (length data)) →
  (28 + len ≤ Z.of_nat (length frame) →
   0 ≤ idx < Z.of_nat (length (txbuflength port)) →
   ∃ port' frame',
     Nexx__setupdatagram port frame com idx ADP ADO len data
     = Some (port', frame', 0)
     ∧ (com ∈ read_cmds →
        read_bytes frame' 26 len = Some (replicate (Z.to_nat len) 0))
     ∧ (com ∉ read_cmds →
        read_bytes frame' 26 len = Some (take (Z.to_nat len) data)))
  ∧ (∀ prev,
       get_txbuflength port idx = Some prev → 24 ≤ prev < 65536 →
       prev + 12 + len ≤ Z.of_nat (length frame) →
       ∃ port' frame' off,
         Nexx__adddatagram port frame com idx more ADP ADO len data
         = Some (port', frame', off)
         ∧ (com ∈ read_cmds →
            read_bytes frame' (prev + 10) len
            = Some (replicate (Z.to_nat len) 0))
         ∧ (com ∉ read_cmds →
            read_bytes frame' (prev + 10) len
            = Some (take (Z.to_nat len) data))).
Proof.
  intros Hlen Hdata. rewrite <-is_read_cmd_not_elem in Hdata. split.
  - intros Hfit Hidx.
    destruct (setupdatagram_spec port frame com idx ADP ADO len data)
      as (frame' & E & _ & _ & _ & _ & _ & _ & _ & Hpay & _); [done..|].
    eexists _, frame'. split; [exact E|].
    split; intros Hc; rewrite Hpay; f_equal;
      [by apply payload_read | by apply payload_write].
  - intros prev Hprev Hrange Hfit.
    destruct (read_bytes_is_Some frame 14 2) as [el Hel]; [lia..|].
    destruct (read_bytes_is_Some frame 22 2) as [dl Hdl]; [lia..|].
    destruct (adddatagram_spec port frame com idx more ADP ADO len data
                prev el dl)
      as (frame' & E & _ & _ & _ & _ & _ & _ & _ & _ & Hpay & _); [done..|].
    eexists _, frame', _. split; [exact E|].
    split; intros Hc; rewrite Hpay; f_equal;
      [by apply payload_read | by apply payload_write].
Qed.

Lemma payload_region_witness :
  (∃ port' frame',
     Nexx__setupdatagram (sent_port 0xff 36) (filled_frame 0xff) Nex_CMD_BRD 3
       0 0x0130 2 [7; 7]
     = Some (port', frame', 0)
     ∧ (Nex_CMD_BRD ∈ read_cmds →
        read_bytes frame' 26 2 = Some (replicate (Z.to_nat 2) 0))
     ∧ (Nex_CMD_BRD ∉ read_cmds →
        read_bytes frame' 26 2 = Some (take (Z.to_nat 2) [7; 7])))
  ∧ (∃ port' frame' off,
       Nexx__adddatagram (sent_port 0xff 36) (filled_frame 0xff) Nex_CMD_BRD 3
         false 0 0x0130 2 [7; 7]
       = Some (port', frame', off)
       ∧ (Nex_CMD_BRD ∈ read_cmds →
          read_bytes frame' (36 + 10) 2 = Some (replicate (Z.to_nat 2) 0))
       ∧ (Nex_CMD_BRD ∉ read_cmds →
          read_bytes frame' (36 + 10) 2 = Some (take (Z.to_nat 2) [7; 7]))).
Proof.
  destruct (payload_region (sent_port 0xff 36) (filled_frame 0xff) Nex_CMD_BRD 3
              false 0 0x0130 2 [7; 7]) as [Hs Ha].
  - lia.
  - intros _. simpl. lia.
  - split.
    + apply Hs; vm_compute; [discriminate | split; [discriminate | reflexivity]].
    + apply (Ha 36); [reflexivity | lia | vm_compute; discriminate].
Defined.

(** The frame builder writes behind the Ethernet header only: bytes 0..13
    of the frame are what they were, after [Nexx__setupdatagram] and after
    [Nexx__adddatagram] on a slot that holds a frame. *)
Theorem ethernet_header_untouched port frame com idx more ADP ADO len data :
  0 ≤ len →
  (is_read_cmd com = false → len ≤ Z.of_nat (length data)) →
  (28 + len ≤ Z.of_nat (length frame) →
   0 ≤ idx < Z.of_nat (length (txbuflength port)) →
   ∃ port' frame',
     Nexx__setupdatagram port frame com idx ADP ADO len data
     = Some (port', frame', 0)
     ∧ read_bytes frame' 0 ETH_HEADERSIZE = read_bytes frame 0 ETH_HEADERSIZE)
  ∧ (∀ prev,
       get_txbuflength port idx = Some prev → 24 ≤ prev < 65536 →
       prev + 12 + len ≤ Z.of_nat (length frame) →
       ∃ port' frame' off,
         Nexx__adddatagram port frame com idx more ADP ADO len data
         = Some (port', frame', off)
         ∧ read_bytes frame' 0 ETH_HEADERSIZE
           = read_bytes frame 0 ETH_HEADERSIZE).
Proof.
  intros Hlen Hdata. split.
  - intros Hfit Hidx.
    destruct (setupdatagram_spec port frame com idx ADP ADO len data)
      as (frame' & E & _ & _ & _ & _ & _ & _ & _ & _ & _ & Hother); [done..|].
    eexists _, frame'. split; [exact E|].
    apply Hother; unfold disjoint, ETH_HEADERSIZE; lia.
  - intros prev Hprev Hrange Hfit.
    destruct (read_bytes_is_Some frame 14 2) as [el Hel]; [lia..|].
    destruct (read_bytes_is_Some frame 22 2) as [dl Hdl]; [lia..|].
    destruct (adddatagram_spec port frame com idx more ADP ADO len data
                prev el dl)
      as (frame' & E & _ & _ & _ & _ & _ & _ & _ & _ & _ & _ & Hother);
      [done..|].
    eexists _, frame', _. split; [exact E|].
    apply Hother; unfold disjoint, ETH_HEADERSIZE; lia.
Qed.

Lemma ethernet_header_untouched_witness :
  (∃ port' frame',
     Nexx__setupdatagram (sent_port 0xff 36) (filled_frame 0xff) Nex_CMD_FPWR 3
       0x1001 0x0120 2 [4; 0]
     = Some (port', frame', 0)
     ∧ read_bytes frame' 0 ETH_HEADERSIZE
       = read_bytes (filled_frame 0xff) 0 ETH_HEADERSIZE)
  ∧ (∃ port' frame' off,
       Nexx__adddatagram (sent_port 0xff 36) (filled_frame 0xff) Nex_CMD_FPWR 3
         false 0x1001 0x0120 2 [4; 0]
       = Some (port', frame', off)
       ∧ read_bytes frame' 0 ETH_HEADERSIZE
         = read_bytes (filled_frame 0xff) 0 ETH_HEADERSIZE).
Proof.
  destruct (ethernet_header_untouched (sent_port 0xff 36) (filled_frame 0xff)
              Nex_CMD_FPWR 3 false 0x1001 0x0120 2 [4; 0]) as [Hs Ha].
  - lia.
  - intros _. simpl. lia.
  - split.
    + apply Hs; vm_compute; [discriminate | split; [discriminate | reflexivity]].
    + apply (Ha 36); [reflexivity | lia | vm_compute; discriminate].
Defined.

(** C2, as amended.  On a slot whose [txbuflength] is [prev],
    [Nexx__adddatagram] returns [prev - 4], that is
    [prev + Nex_HEADERSIZE - Nex_ELENGTHSIZE - ETH_HEADERSIZE]; the payload
    of the new datagram lies at that offset plus the 14 bytes of the
    Ethernet header in the transmit frame. *)
Theorem adddatagram_offset port frame com idx more ADP ADO len data prev :
  get_txbuflength port idx = Some prev →
  24 ≤ prev < 65536 →
  0 ≤ len → prev + 12 + len ≤ Z.of_nat (length frame) →
  (is_read_cmd com = false → len ≤ Z.of_nat (length data)) →
  ∃ port' frame',
    Nexx__adddatagram port frame com idx more ADP ADO len data
    = Some (port', frame', prev - 4)
    ∧ read_bytes frame' (prev - 4 + ETH_HEADERSIZE) len
      = Some (payload com len data).
Proof.
  intros Hprev Hrange Hlen Hfit Hdata.
  destruct (read_bytes_is_Some frame 14 2) as [el Hel]; [lia..|].
  destruct (read_bytes_is_Some frame 22 2) as [dl Hdl]; [lia..|].
  destruct (adddatagram_spec port frame com idx more ADP ADO len data
              prev el dl)
    as (frame' & E & _ & _ & _ & _ & _ & _ & _ & _ & Hpay & _); [done..|].
  eexists _, frame'. split; [exact E|].
  unfold ETH_HEADERSIZE. by replace (prev - 4 + 14) with (prev + 10) by lia.
Qed.

Lemma adddatagram_offset_witness :
  ∃ port' frame',
    Nexx__adddatagram (sent_port 0 36) (filled_frame 0) Nex_CMD_FRMW 3 false
      0x1000 ECT_REG_DCSYSTIME 8 (htoell 258)
    = Some (port', frame', 36 - 4)
    ∧ read_bytes frame' (36 - 4 + ETH_HEADERSIZE) 8
      = Some (payload Nex_CMD_FRMW 8 (htoell 258)).
Proof.
  apply adddatagram_offset.
  - reflexivity.
  - lia.
  - lia.
  - vm_compute. discriminate.
  - intros _. simpl. lia.
Defined.

(** C2 as stated fails: after a set-up with an eight-byte payload
    [txbuflength] is 36 and [Nexx__adddatagram] returns 32, not [36 - 6]. *)
Lemma adddatagram_offset_counterexample :
  ('(port, frame, _) ← Nexx__setupdatagram (filled_port 0) (filled_frame 0)
                         Nex_CMD_LRW 3 0 1 8 [1; 2; 3; 4; 5; 6; 7; 8];
   prev ← get_txbuflength port 3;
   '(_, _, off) ← Nexx__adddatagram port frame Nex_CMD_FRMW 3 false
                    0x1000 ECT_REG_DCSYSTIME 8 (htoell 258);
   Some (prev, off)) = Some (36, 32)
  ∧ 32 ≠ 36 - 6.
Proof. split; [by vm_compute | lia]. Qed.

Lemma area_sum_len ds : area ds = 12 * Z.of_nat (length ds) + sum_len ds.
Proof. induction ds as [|d ds IH]; simpl; [done|]. rewrite IH. lia. Qed.

(** C3, as amended.  A frame built by one [Nexx__setupdatagram] call and
    [k] [Nexx__adddatagram] calls with payload lengths [L0 ... Lk] has
    [txbuflength = 14 + 12 * (k + 1) + (L0 + ... + Lk) + 2], and the
    EtherCAT length word at offset 14 holds [12 * (k + 1) + (L0 + ... + Lk)]
    OR'd with the type nibble: every datagram counts its ten-byte
    sub-header and its own two-byte working counter.  Each
    [Nexx__adddatagram] call sets [txbuflength] to
    [prev - 2 + 12 + len + 2]. *)
Theorem build_frame_lengths port frame idx d0 ds :
  Forall wf_datagram (d0 :: ds) →
  16 + area (d0 :: ds) ≤ Z.of_nat (length frame) →
  area (d0 :: ds) < 4096 →
  0 ≤ idx < Z.of_nat (length (txbuflength port)) →
  let k := Z.of_nat (length ds) in
  ∃ port' frame',
    build_frame port frame idx d0 ds = Some (port', frame')
    ∧ get_txbuflength port' idx
      = Some (14 + 12 * (k + 1) + sum_len (d0 :: ds) + 2)
    ∧ field16 frame' 14
      = Some (Z.lor Nex_ECATTYPE (12 * (k + 1) + sum_len (d0 :: ds)))
    ∧ ∀ d, wf_datagram d →
        16 + area (d0 :: ds) + 12 + dg_len d ≤ Z.of_nat (length frame) →
        ∃ port'' frame'' off,
          Nexx__adddatagram port' frame' (dg_com d) idx (dg_more d)
            (dg_ADP d) (dg_ADO d) (dg_len d) (dg_data d)
          = Some (port'', frame'', off)
          ∧ ∃ prev, get_txbuflength port' idx = Some prev
            ∧ get_txbuflength port'' idx
              = Some (prev - 2 + 12 + dg_len d + 2).
Proof.
  intros Hwf Hfit Harea Hidx k.
  pose proof (area_nonneg _ Hwf) as Hnn.
  destruct (build_frame_inv port frame idx d0 ds)
    as (port' & frame' & E & L & T & Ha & Hb & Hc);
    [done | done | unfold Nex_ECATTYPE; lia | done |].
  exists port', frame'. split; [done|].
  assert (area (d0 :: ds) = 12 * (k + 1) + sum_len (d0 :: ds)) as Hsum.
  { rewrite area_sum_len. cbn [length]. lia. }
  split; [|split].
  - rewrite Ha. f_equal. lia.
  - rewrite Hb, <-Hsum. f_equal. symmetry. apply ecattype_lor. lia.
  - intros d [Hlen Hdata] Hfit'.
    assert (28 ≤ 16 + area (d0 :: ds)) as Hprev.
    { inversion Hwf as [|?? [??] Hwf']; subst.
      pose proof (area_nonneg _ Hwf'). cbn [area foldr]. fold (area ds). lia. }
    destruct (read_bytes_is_Some frame' 14 2) as [el Hel]; [lia..|].
    destruct (read_bytes_is_Some frame' 22 2) as [dl Hdl]; [lia..|].
    destruct (adddatagram_spec port' frame' (dg_com d) idx (dg_more d)
                (dg_ADP d) (dg_ADO d) (dg_len d) (dg_data d)
                (16 + area (d0 :: ds)) el dl)
      as (frame'' & E' & _); [done | lia | lia | lia | done..|].
    eexists _, frame'', _. split; [exact E'|].
    exists (16 + area (d0 :: ds)). split; [done|].
    rewrite get_set_txbuflength by lia. f_equal. lia.
Qed.

Lemma build_frame_lengths_witness :
  let k := Z.of_nat (length [frmw_dg false]) in
  ∃ port' frame',
    build_frame (filled_port 0) (filled_frame 0) 3 lrw_dg [frmw_dg false]
    = Some (port', frame')
    ∧ get_txbuflength port' 3
      = Some (14 + 12 * (k + 1) + sum_len [lrw_dg; frmw_dg false] + 2)
    ∧ field16 frame' 14
      = Some (Z.lor Nex_ECATTYPE (12 * (k + 1) + sum_len [lrw_dg; frmw_dg false]))
    ∧ ∀ d, wf_datagram d →
        16 + area [lrw_dg; frmw_dg false] + 12 + dg_len d
        ≤ Z.of_nat (length (filled_frame 0)) →
        ∃ port'' frame'' off,
          Nexx__adddatagram port' frame' (dg_com d) 3 (dg_more d)
            (dg_ADP d) (dg_ADO d) (dg_len d) (dg_data d)
          = Some (port'', frame'', off)
          ∧ ∃ prev, get_txbuflength port' 3 = Some prev
            ∧ get_txbuflength port'' 3
              = Some (prev - 2 + 12 + dg_len d + 2).
Proof.
  apply build_frame_lengths.
  - repeat constructor; simpl; try lia; by intros.
  - vm_compute. discriminate.
  - vm_compute. reflexivity.
  - vm_compute. split; [discriminate | reflexivity].
Defined.

(** C3 as stated fails: the frame of an eight-byte LRW followed by an
    eight-byte FRMW is 56 bytes long with length word [0x1028], where the
    claim gives [14 + 10 * 2 + 16 + 2 = 52] and [0x1000 | 36]. *)
Lemma build_frame_lengths_counterexample :
  ('(port', frame') ← build_frame (filled_port 0) (filled_frame 0) 3 lrw_dg
                        [frmw_dg false];
   txlen ← get_txbuflength port' 3;
   el ← field16 frame' 14;
   Some (txlen, el)) = Some (56, 0x1028)
  ∧ 56 ≠ 14 + 10 * (1 + 1) + (8 + 8) + 2
  ∧ 0x1028 ≠ Z.lor Nex_ECATTYPE (10 * (1 + 1) + (8 + 8)).
Proof. split; [by vm_compute | split; [lia | by vm_compute]]. Qed.

Lemma expected_more_convention ds j :
  more_on_all_but_last ds → (j ≤ length ds)%nat →
  expected_more ds j = bool_decide (j < length ds)%nat.
Proof.
  intros Hconv Hj. destruct j as [|j]; cbn [expected_more].
  - destruct ds as [|d ds]; [done|].
    rewrite !bool_decide_true; [done | simpl; lia | done].
  - assert ((dg_more <$> ds) !! j
            = Some (bool_decide (S j < length ds)%nat)) as Hl.
    { rewrite Hconv. destruct (decide (S j < length ds)%nat).
      - rewrite lookup_app_l by (rewrite length_replicate; lia).
        rewrite bool_decide_true by done.
        apply lookup_replicate. split; [done | lia].
      - rewrite lookup_app_r by (rewrite length_replicate; lia).
        rewrite bool_decide_false by done. rewrite length_replicate.
        apply lookup_replicate. split; [done | lia]. }
    rewrite list_lookup_fmap in Hl. destruct (ds !! j); [|done].
    simpl in *. by injection Hl.
Qed.

(** C4, as amended.  In a frame built by one [Nexx__setupdatagram] call and
    any number of [Nexx__adddatagram] calls, with payload lengths below
    32768, bit 15 of the dlength word of the first datagram is set exactly
    when at least one datagram was added, and bit 15 of the dlength word of
    an added datagram is the [more] argument of its own call:
    [Nexx__adddatagram] puts the flag in the first datagram of the frame,
    not in the datagram before the one it adds.  Hence, when [more] is
    [TRUE] on every call but the last, bit 15 is set in every datagram
    except the last and clear in the last. *)
Theorem build_frame_more_bits port frame idx d0 ds :
  Forall wf_datagram (d0 :: ds) →
  Forall (λ d, dg_len d < 32768) (d0 :: ds) →
  16 + area (d0 :: ds) ≤ Z.of_nat (length frame) →
  Nex_ECATTYPE + area (d0 :: ds) < 65536 →
  0 ≤ idx < Z.of_nat (length (txbuflength port)) →
  ∃ port' frame',
    build_frame port frame idx d0 ds = Some (port', frame')
    ∧ (∀ j d, (d0 :: ds) !! j = Some d →
         ∃ dl, field16 frame' (dg_off (d0 :: ds) j + 6) = Some dl
           ∧ Z.testbit dl 15 = expected_more ds j)
    ∧ (more_on_all_but_last ds →
       ∀ j d, (d0 :: ds) !! j = Some d →
         ∃ dl, field16 frame' (dg_off (d0 :: ds) j + 6) = Some dl
           ∧ Z.testbit dl 15 = bool_decide (j < length ds)%nat).
Proof.
  intros Hwf Hsmall Hfit Hwrap Hidx.
  destruct (build_frame_inv port frame idx d0 ds)
    as (port' & frame' & E & L & T & Ha & Hb & Hc); [done..|].
  exists port', frame'. split; [done|].
  assert (∀ j d, (d0 :: ds) !! j = Some d →
            ∃ dl, field16 frame' (dg_off (d0 :: ds) j + 6) = Some dl
              ∧ Z.testbit dl 15 = expected_more ds j) as Hbits.
  { intros j d Hj. eexists. split; [by apply Hc|].
    apply dl_val_bit15.
    pose proof (Forall_lookup_1 _ _ _ _ Hwf Hj) as [??].
    pose proof (Forall_lookup_1 _ _ _ _ Hsmall Hj). simpl in *. lia. }
  split; [done|].
  intros Hconv j d Hj. destruct (Hbits j d Hj) as (dl & Hdl & Hbit).
  exists dl. split; [done|]. rewrite Hbit.
  apply expected_more_convention; [done|].
  apply lookup_lt_Some in Hj. simpl in Hj. lia.
Qed.

Lemma build_frame_more_bits_witness :
  ∃ port' frame',
    build_frame (filled_port 0) (filled_frame 0) 3 lrw_dg
      [frmw_dg true; frmw_dg false]
    = Some (port', frame')
    ∧ (∀ j d, (lrw_dg :: [frmw_dg true; frmw_dg false]) !! j = Some d →
         ∃ dl, field16 frame'
                 (dg_off (lrw_dg :: [frmw_dg true; frmw_dg false]) j + 6)
               = Some dl
           ∧ Z.testbit dl 15 = expected_more [frmw_dg true; frmw_dg false] j)
    ∧ (more_on_all_but_last [frmw_dg true; frmw_dg false] →
       ∀ j d, (lrw_dg :: [frmw_dg true; frmw_dg false]) !! j = Some d →
         ∃ dl, field16 frame'
                 (dg_off (lrw_dg :: [frmw_dg true; frmw_dg false]) j + 6)
               = Some dl
           ∧ Z.testbit dl 15
             = bool_decide (j < length [frmw_dg true; frmw_dg false])%nat).
Proof.
  apply build_frame_more_bits.
  - repeat constructor; simpl; try lia; by intros.
  - repeat constructor; simpl; lia.
  - vm_compute. discriminate.
  - vm_compute. reflexivity.
  - vm_compute. split; [discriminate | reflexivity].
Defined.

(** C4 as stated fails: with [more = FALSE] on both of two
    [Nexx__adddatagram] calls, the second of the three datagrams, whose
    dlength word is at offset 36, has bit 15 clear although a datagram
    follows it; the second call set the bit of the first datagram (offset
    22), which the first call had set already. *)
Lemma build_frame_more_bits_counterexample :
  ('(_, frame') ← build_frame (filled_port 0) (filled_frame 0) 3
                    (mk_datagram Nex_CMD_LRW false 0 1 2 [1; 2])
                    [mk_datagram Nex_CMD_FPRD false 0x1001 0x0130 2 [];
                     mk_datagram Nex_CMD_FRMW false 0x1000 ECT_REG_DCSYSTIME 8
                       (htoell 258)];
   dl0 ← field16 frame' 22;
   dl1 ← field16 frame' 36;
   dl2 ← field16 frame' 50;
   Some (Z.testbit dl0 15, Z.testbit dl1 15, Z.testbit dl2 15))
  = Some (true, false, false).
Proof. by vm_compute. Qed.

(** ** Claims on the primitives *)

Lemma memcpy_to_int_low `{Target} wkc w :
  big_endian = false →
  0 ≤ wkc < 65536 → length w = 2%nat → Forall uint8 w →
  memcpy_to_int wkc w = etohs w.
Proof.
  intros Hle Hwkc Hlen Hw.
  destruct w as [|a [|b [|c w]]]; try done.
  apply Forall_cons in Hw as [Ha Hw]. apply Forall_cons in Hw as [Hb _].
  unfold uint8 in *. unfold memcpy_to_int, int_of_bytes, bytes_of_int, etohs.
  rewrite Hle. cbn [length drop le_bytes app le_value].
  assert ((wkc `div` 256) `div` 256 = 0) as ->.
  { rewrite Z.div_div by lia. apply Z.div_small. lia. }
  change (0 `div` 256) with 0. change (0 `mod` 256) with 0.
  rewrite decide_True; lia.
Qed.

(** The bound on the counter of the transport is needed: the two bytes
    replace the low half of the [int] and leave its high half. *)
Lemma memcpy_to_int_keeps_high_half :
  @memcpy_to_int lp64 (65536 + 4) (htoes 3) = 65536 + 3.
Proof. by vm_compute. Qed.

(** On a big-endian target the two bytes land in the high half of the
    [int], most significant first, and the low half keeps the counter of
    the transport. *)
Lemma memcpy_to_int_high `{Target} wkc b0 b1 :
  big_endian = true →
  0 ≤ wkc < 65536 → 0 ≤ b0 < 128 → uint8 b1 →
  memcpy_to_int wkc [b0; b1] = b0 * 2 ^ 24 + b1 * 2 ^ 16 + wkc.
Proof.
  intros Hbe Hwkc Hb0 Hb1. unfold uint8 in *.
  unfold memcpy_to_int, int_of_bytes, bytes_of_int. rewrite Hbe.
  cbn [length drop le_bytes app le_value reverse rev_append].
  rewrite decide_True by (Z.div_mod_to_equations; lia).
  Z.div_mod_to_equations; lia.
Qed.

(** Case analysis on the steps every primitive starts with: the index,
    the transmit buffer of the slot and the set-up of the first datagram. *)
Ltac run_setup :=
  destruct (Nexx__getindex _) as [? ?];
  destruct (tx_frame _ _) as [?|]; [|done]; cbn [mbind option_bind];
  destruct (Nexx__setupdatagram _ _ _ _ _ _ _ _) as [[[? ?] ?]|]; [|done];
  cbn [mbind option_bind]; cbv zeta.

Section PrimitiveClaims.
Context `{NicDrv} `{Target}.

Lemma APRD_exchange port ADP ADO len data timeout :
  Nexx__APRD port ADP ADO len data timeout
  = '(port, idx, wkc) ← exchange port Nex_CMD_APRD ADP ADO len data timeout;
    data ← (if decide (wkc > 0) then copy_reply port idx data len
            else Some data);
    Some (Nexx__setbufstat port idx Nex_BUF_EMPTY, data, wkc).
Proof.
  unfold Nexx__APRD, exchange. run_setup.
  by destruct (Nexx__srconfirm _ _ _) as [p3 wkc].
Qed.

Lemma FPRD_exchange port ADP ADO len data timeout :
  Nexx__FPRD port ADP ADO len data timeout
  = '(port, idx, wkc) ← exchange port Nex_CMD_FPRD ADP ADO len data timeout;
    data ← (if decide (wkc > 0) then copy_reply port idx data len
            else Some data);
    Some (Nexx__setbufstat port idx Nex_BUF_EMPTY, data, wkc).
Proof.
  unfold Nexx__FPRD, exchange. run_setup.
  by destruct (Nexx__srconfirm _ _ _) as [p3 wkc].
Qed.

Lemma LRW_exchange port LogAdr len data timeout :
  Nexx__LRW port LogAdr len data timeout
  = '(port, idx, wkc) ← exchange port Nex_CMD_LRW (LO_WORD LogAdr)
                          (HI_WORD LogAdr) len data timeout;
    data ← (if decide (wkc > 0) then
              cmd ← reply_command port idx;
              if decide (cmd = Nex_CMD_LRW) then copy_reply port idx data len
              else Some data
            else Some data);
    Some (Nexx__setbufstat port idx Nex_BUF_EMPTY, data, wkc).
Proof.
  unfold Nexx__LRW, exchange. run_setup.
  by destruct (Nexx__srconfirm _ _ _) as [p3 wkc].
Qed.

Lemma LRD_exchange port LogAdr len data timeout :
  Nexx__LRD port LogAdr len data timeout
  = '(port, idx, wkc) ← exchange port Nex_CMD_LRD (LO_WORD LogAdr)
                          (HI_WORD LogAdr) len data timeout;
    data ← (if decide (wkc > 0) then
              cmd ← reply_command port idx;
              if decide (cmd = Nex_CMD_LRD) then copy_reply port idx data len
              else Some data
            else Some data);
    Some (Nexx__setbufstat port idx Nex_BUF_EMPTY, data, wkc).
Proof.
  unfold Nexx__LRD, exchange. run_setup.
  by destruct (Nexx__srconfirm _ _ _) as [p3 wkc].
Qed.

Lemma LRWDC_exchange port LogAdr len data DCrs DCtime timeout :
  Nexx__LRWDC port LogAdr len data DCrs DCtime timeout
  = '(port, idx, DCtO, wkc) ← exchange_dc port LogAdr len data DCrs DCtime
                                timeout;
    '(data, wkc, DCtime) ←
      (if decide (wkc > 0) then
         cmd ← reply_command port idx;
         if decide (cmd = Nex_CMD_LRW) then
           data ← copy_reply port idx data len;
           rx ← rx_frame port idx;
           w ← read_bytes rx (Nex_HEADERSIZE + len) Nex_WKCSIZE;
           DCtE ← read_bytes rx DCtO 8;
           Some (data, memcpy_to_int wkc w, etohll DCtE)
         else Some (data, wkc, DCtime)
       else Some (data, wkc, DCtime));
    Some (Nexx__setbufstat port idx Nex_BUF_EMPTY, data, DCtime, wkc).
Proof.
  unfold Nexx__LRWDC, exchange_dc, LRWDC_frame. run_setup.
  destruct (Nexx__adddatagram _ _ _ _ _ _ _ _ _) as [[[p3 f3] off]|]; [|done].
  cbn [mbind option_bind]. by destruct (Nexx__srconfirm _ _ _) as [p4 wkc].
Qed.

(** C10.  When [Nexx__APRD] (respectively [Nexx__FPRD]), called as
    [Nexx__APRDw] (respectively [Nexx__FPRDw]) calls it, returns a
    working counter that is not positive, the word variant returns 0:
    its local word was set to zero and the failed transfer did not
    write it. *)
Theorem word_read_zero_on_failure port ADP ADO timeout :
  (∀ port' w wkc,
     Nexx__APRD port ADP ADO 2 (le_bytes 2 0) timeout = Some (port', w, wkc) →
     wkc ≤ 0 →
     Nexx__APRDw port ADP ADO timeout = Some (port', 0))
  ∧ (∀ port' w wkc,
       Nexx__FPRD port ADP ADO 2 (le_bytes 2 0) timeout = Some (port', w, wkc) →
       wkc ≤ 0 →
       Nexx__FPRDw port ADP ADO timeout = Some (port', 0)).
Proof.
  split; intros port' w wkc Hrd Hwkc.
  - unfold Nexx__APRDw. cbv zeta. rewrite Hrd. cbn [mbind option_bind].
    rewrite APRD_exchange in Hrd.
    destruct (exchange _ _ _ _ _ _ _) as [[[p idx] wkc']|]; [|done].
    cbn [mbind option_bind] in Hrd.
    destruct (decide (wkc' > 0)) as [Hpos|_].
    + destruct (copy_reply _ _ _ _); [|done]. injection Hrd as _ _ ->. lia.
    + by injection Hrd as _ <- _.
  - unfold Nexx__FPRDw. cbv zeta. rewrite Hrd. cbn [mbind option_bind].
    rewrite FPRD_exchange in Hrd.
    destruct (exchange _ _ _ _ _ _ _) as [[[p idx] wkc']|]; [|done].
    cbn [mbind option_bind] in Hrd.
    destruct (decide (wkc' > 0)) as [Hpos|_].
    + destruct (copy_reply _ _ _ _); [|done]. injection Hrd as _ _ ->. lia.
    + by injection Hrd as _ <- _.
Qed.

(** C9.  In [Nexx__LRD], [Nexx__LRW] and [Nexx__LRWDC], when the
    transport returns a positive working counter and the command byte of
    the received frame is not the command that was sent, nothing is
    copied back: the caller's [data] (and, for [Nexx__LRWDC], the DC
    time) is returned as it was passed, and the working counter of the
    transport is returned unchanged. *)
Theorem logical_command_mismatch port LogAdr len data DCrs DCtime timeout :
  (∀ p idx wkc cmd,
     exchange port Nex_CMD_LRD (LO_WORD LogAdr) (HI_WORD LogAdr) len data
       timeout = Some (p, idx, wkc) →
     wkc > 0 → reply_command p idx = Some cmd → cmd ≠ Nex_CMD_LRD →
     Nexx__LRD port LogAdr len data timeout
     = Some (Nexx__setbufstat p idx Nex_BUF_EMPTY, data, wkc))
  ∧ (∀ p idx wkc cmd,
       exchange port Nex_CMD_LRW (LO_WORD LogAdr) (HI_WORD LogAdr) len data
         timeout = Some (p, idx, wkc) →
       wkc > 0 → reply_command p idx = Some cmd → cmd ≠ Nex_CMD_LRW →
       Nexx__LRW port LogAdr len data timeout
       = Some (Nexx__setbufstat p idx Nex_BUF_EMPTY, data, wkc))
  ∧ (∀ p idx DCtO wkc cmd,
       exchange_dc port LogAdr len data DCrs DCtime timeout
       = Some (p, idx, DCtO, wkc) →
       wkc > 0 → reply_command p idx = Some cmd → cmd ≠ Nex_CMD_LRW →
       Nexx__LRWDC port LogAdr len data DCrs DCtime timeout
       = Some (Nexx__setbufstat p idx Nex_BUF_EMPTY, data, DCtime, wkc)).
Proof.
  split; [|split].
  - intros p idx wkc cmd Hex Hwkc Hcmd Hne.
    rewrite LRD_exchange, Hex. cbn [mbind option_bind].
    rewrite decide_True by done. rewrite Hcmd. cbn [mbind option_bind].
    by rewrite decide_False by done.
  - intros p idx wkc cmd Hex Hwkc Hcmd Hne.
    rewrite LRW_exchange, Hex. cbn [mbind option_bind].
    rewrite decide_True by done. rewrite Hcmd. cbn [mbind option_bind].
    by rewrite decide_False by done.
  - intros p idx DCtO wkc cmd Hex Hwkc Hcmd Hne.
    rewrite LRWDC_exchange, Hex. cbn [mbind option_bind].
    rewrite decide_True by done. rewrite Hcmd. cbn [mbind option_bind].
    by rewrite decide_False by done.
Qed.

(** C1, as amended.  On a little-endian host, when the transport returns
    a working counter [wkc] with [0 < wkc < 65536] and the command byte of
    the received frame is LRW, [Nexx__LRWDC] returns the two-byte
    little-endian value at offset [Nex_HEADERSIZE + len = 12 + len] of the
    receive buffer, the working counter of the LRW datagram, in place of
    the counter of the transport.  The host condition is needed: the code
    copies the two bytes into the [int] with [memcpy] and does not apply
    [etohs]. *)
Theorem LRWDC_returns_lrw_wkc port LogAdr len data DCrs DCtime timeout
    p idx DCtO wkc rx data' w DCtE :
  big_endian = false →
  exchange_dc port LogAdr len data DCrs DCtime timeout
  = Some (p, idx, DCtO, wkc) →
  0 < wkc < 65536 →
  reply_command p idx = Some Nex_CMD_LRW →
  rx_frame p idx = Some rx →
  copy_reply p idx data len = Some data' →
  read_bytes rx (12 + len) 2 = Some w →
  Forall uint8 w →
  read_bytes rx DCtO 8 = Some DCtE →
  Nexx__LRWDC port LogAdr len data DCrs DCtime timeout
  = Some (Nexx__setbufstat p idx Nex_BUF_EMPTY, data', etohll DCtE, etohs w).
Proof.
  intros Hle Hex Hwkc Hcmd Hrx Hcopy Hw Hbytes Hdc.
  rewrite LRWDC_exchange, Hex. cbn [mbind option_bind].
  rewrite decide_True by lia. rewrite Hcmd. cbn [mbind option_bind].
  rewrite decide_True by done. rewrite Hcopy, Hrx. cbn [mbind option_bind].
  unfold Nex_HEADERSIZE, Nex_WKCSIZE. rewrite Hw, Hdc.
  cbn [mbind option_bind].
  rewrite memcpy_to_int_low; [done | done | lia | | done].
  apply read_bytes_length in Hw. lia.
Qed.
End PrimitiveClaims.

Lemma word_read_zero_on_failure_witness :
  (∃ port', @Nexx__APRDw (canned_nic 3 (filled_frame 0) Nex_NOFRAME) (filled_port 0)
              0 0x0130 2000 = Some (port', 0))
  ∧ (∃ port', @Nexx__FPRDw (canned_nic 3 (filled_frame 0) Nex_NOFRAME) (filled_port 0)
                0x1001 0x0130 2000 = Some (port', 0)).
Proof.
  split.
  - eexists.
    eapply (proj1 (@word_read_zero_on_failure (canned_nic 3 (filled_frame 0) Nex_NOFRAME)
                     (filled_port 0) 0 0x0130 2000)).
    + reflexivity.
    + unfold Nex_NOFRAME. lia.
  - eexists.
    eapply (proj2 (@word_read_zero_on_failure (canned_nic 3 (filled_frame 0) Nex_NOFRAME)
                     (filled_port 0) 0x1001 0x0130 2000)).
    + reflexivity.
    + unfold Nex_NOFRAME. lia.
Defined.

Lemma logical_command_mismatch_witness :
  (∃ p, @Nexx__LRD (canned_nic 3 (lrwdc_reply Nex_CMD_NOP) 4) (filled_port 0)
          0x10000 8 [1; 2; 3; 4; 5; 6; 7; 8] 2000
        = Some (p, [1; 2; 3; 4; 5; 6; 7; 8], 4))
  ∧ (∃ p, @Nexx__LRW (canned_nic 3 (lrwdc_reply Nex_CMD_NOP) 4) (filled_port 0)
            0x10000 8 [1; 2; 3; 4; 5; 6; 7; 8] 2000
          = Some (p, [1; 2; 3; 4; 5; 6; 7; 8], 4))
  ∧ (∃ p, @Nexx__LRWDC (canned_nic 3 (lrwdc_reply Nex_CMD_NOP) 4) lp64
            (filled_port 0) 0x10000 8 [1; 2; 3; 4; 5; 6; 7; 8] 0x1000 258 2000
          = Some (p, [1; 2; 3; 4; 5; 6; 7; 8], 258, 4)).
Proof.
  pose proof (@logical_command_mismatch
                (canned_nic 3 (lrwdc_reply Nex_CMD_NOP) 4) lp64 (filled_port 0)
                0x10000 8 [1; 2; 3; 4; 5; 6; 7; 8] 0x1000 258 2000)
    as (Hlrd & Hlrw & Hdc).
  split; [|split]; eexists.
  - eapply Hlrd; [reflexivity | lia | reflexivity | by vm_compute].
  - eapply Hlrw; [reflexivity | lia | reflexivity | by vm_compute].
  - eapply Hdc; [reflexivity | lia | reflexivity | by vm_compute].
Defined.

Lemma LRWDC_returns_lrw_wkc_witness :
  ∃ p, @Nexx__LRWDC (canned_nic 3 (lrwdc_reply Nex_CMD_LRW) 4) lp64
         (filled_port 0) 0x10000 8 [1; 2; 3; 4; 5; 6; 7; 8] 0x1000 258 2000
       = Some (p, [11; 12; 13; 14; 15; 16; 17; 18], etohll (htoell 1000),
               etohs (htoes 3)).
Proof.
  eexists.
  eapply (@LRWDC_returns_lrw_wkc (canned_nic 3 (lrwdc_reply Nex_CMD_LRW) 4) lp64
            (filled_port 0) 0x10000 8 [1; 2; 3; 4; 5; 6; 7; 8] 0x1000 258 2000
            _ _ _ _ (lrwdc_reply Nex_CMD_LRW)).
  - reflexivity.
  - reflexivity.
  - lia.
  - reflexivity.
  - reflexivity.
  - reflexivity.
  - reflexivity.
  - cbv [htoes le_bytes].
    repeat first [apply Forall_nil_2 | apply Forall_cons_2];
      vm_compute; (split; [discriminate | reflexivity]).
  - reflexivity.
Defined.

(** C1 as stated fails on the offset: for an eight-byte payload the value
    returned, 3, is the word at offset [12 + 8] of the receive buffer; the
    word at offset [10 + 8] is the end of the LRW payload. *)
Lemma LRWDC_wkc_offset_counterexample :
  ('(_, _, _, wkc) ← @Nexx__LRWDC (canned_nic 3 (lrwdc_reply Nex_CMD_LRW) 4) lp64
                       (filled_port 0) 0x10000 8 [1; 2; 3; 4; 5; 6; 7; 8]
                       0x1000 258 2000;
   Some wkc) = Some 3
  ∧ field16 (lrwdc_reply Nex_CMD_LRW) (10 + 8) = Some (17 + 256 * 18)
  ∧ field16 (lrwdc_reply Nex_CMD_LRW) (12 + 8) = Some 3.
Proof. split; [by vm_compute | split; by vm_compute]. Qed.

(** The same call on a big-endian host: the two bytes [03 00] of the
    working counter of the LRW datagram are copied to the two lowest
    addresses of the [int] that holds the counter 4 of the transport, its
    most significant half, and the value returned is [3 * 2 ^ 24 + 4]. *)
Lemma LRWDC_big_endian_wkc :
  ('(_, _, _, wkc) ← @Nexx__LRWDC (canned_nic 3 (lrwdc_reply Nex_CMD_LRW) 4)
                       lp64_be (filled_port 0) 0x10000 8
                       [1; 2; 3; 4; 5; 6; 7; 8] 0x1000 258 2000;
   Some wkc) = Some (3 * 2 ^ 24 + 4).
Proof. by vm_compute. Qed.

(** The second datagram of the frame of [Nexx__LRWDC]: an FRMW on register
    [0x0910] of station [DCrs], last in the frame, whose payload length is
    [sizeof(DCtime)], the size of a pointer, and whose payload is that many
    leading bytes of the little-endian DC time. *)
Lemma LRWDC_second_datagram `{Target} port frame idx LogAdr len data DCrs DCtime :
  0 ≤ len < 32768 → len ≤ Z.of_nat (length data) →
  0 ≤ sizeof_ptr ≤ 8 → uint16 DCrs →
  28 + len + 12 + sizeof_ptr ≤ Z.of_nat (length frame) →
  0 ≤ idx < Z.of_nat (length (txbuflength port)) →
  ∃ port' frame',
    LRWDC_frame port frame idx LogAdr len data DCrs DCtime
    = Some (port', frame', 24 + len)
    ∧ get_txbuflength port' idx = Some (28 + len + 12 + sizeof_ptr)
    ∧ field16 frame' 22 = Some (dl_val len true)
    ∧ read_bytes frame' (28 + len) 1 = Some [Nex_CMD_FRMW]
    ∧ field16 frame' (28 + len + 2) = Some DCrs
    ∧ field16 frame' (28 + len + 4) = Some ECT_REG_DCSYSTIME
    ∧ field16 frame' (28 + len + 6) = Some (dl_val sizeof_ptr false)
    ∧ read_bytes frame' (28 + len + 10) sizeof_ptr
      = Some (take (Z.to_nat sizeof_ptr) (htoell DCtime)).
Proof.
  intros Hlen Hdata Hptr HDCrs Hfit Hidx.
  destruct (setupdatagram_spec port frame Nex_CMD_LRW idx (LO_WORD LogAdr)
              (HI_WORD LogAdr) len data)
    as (f1 & E1 & L1 & Hel & _ & _ & _ & _ & Hdl & _); [lia | lia | done..|].
  set (p1 := mk_port _ _ _ _) in E1.
  assert (get_txbuflength p1 idx = Some (28 + len)) as Hprev
    by (by apply get_set_txbuflength).
  destruct (adddatagram_spec p1 f1 Nex_CMD_FRMW idx false DCrs
              ECT_REG_DCSYSTIME sizeof_ptr (htoell DCtime) (28 + len)
              (htoes (Nex_ECATTYPE + 12 + len)) (htoes len))
    as (f2 & E2 & L2 & _ & Hdl0 & Hc & _ & Hadp & Hado & Hdl1 & Hpay & _);
    [done | lia | lia | lia | intros _; simpl; lia | done | done |].
  unfold LRWDC_frame. rewrite E1. cbn [mbind option_bind]. cbv zeta.
  rewrite E2. cbn [mbind option_bind].
  replace ((28 + len - 4) `mod` 65536) with (24 + len)
    by (rewrite Z.mod_small; lia).
  eexists _, f2. split; [done|]. repeat split.
  - rewrite get_set_txbuflength; [f_equal; lia|].
    subst p1. simpl. rewrite length_insert. lia.
  - rewrite (field16_read _ _ _ Hdl0). f_equal.
    rewrite (etohs_htoes_uint16 len) by (unfold uint16; lia).
    apply etohs_htoes_uint16. apply (dl_val_uint16 len true). lia.
  - done.
  - rewrite (field16_read _ _ _ Hadp). f_equal. by apply etohs_htoes_uint16.
  - by rewrite (field16_read _ _ _ Hado).
  - rewrite (field16_read _ _ _ Hdl1). f_equal. unfold dl_val.
    apply etohs_htoes_uint16. unfold uint16. lia.
  - by rewrite Hpay.
Qed.

Lemma LRWDC_second_datagram_witness :
  ∃ port' frame',
    @LRWDC_frame lp64 (filled_port 0) (filled_frame 0) 3 0x10000 8
      [1; 2; 3; 4; 5; 6; 7; 8] 0x1000 258
    = Some (port', frame', 24 + 8)
    ∧ get_txbuflength port' 3 = Some (28 + 8 + 12 + 8)
    ∧ field16 frame' 22 = Some (dl_val 8 true)
    ∧ read_bytes frame' (28 + 8) 1 = Some [Nex_CMD_FRMW]
    ∧ field16 frame' (28 + 8 + 2) = Some 0x1000
    ∧ field16 frame' (28 + 8 + 4) = Some ECT_REG_DCSYSTIME
    ∧ field16 frame' (28 + 8 + 6) = Some (dl_val 8 false)
    ∧ read_bytes frame' (28 + 8 + 10) 8
      = Some (take (Z.to_nat 8) (htoell 258)).
Proof.
  apply (@LRWDC_second_datagram lp64).
  - lia.
  - simpl. lia.
  - simpl. lia.
  - unfold uint16. lia.
  - vm_compute. discriminate.
  - vm_compute. split; [discriminate | reflexivity].
Defined.

(** On a target with eight-byte pointers the FRMW datagram carries the
    eight bytes of the DC time. *)
Lemma LRWDC_frame_lp64 :
  ('(port, frame, DCtO) ← @LRWDC_frame lp64 (filled_port 0xff) (filled_frame 0xff)
                            3 0x10000 8 [1; 2; 3; 4; 5; 6; 7; 8] 0x1000
                            0x0807060504030201;
   sub ← read_bytes frame 36 10;
   pay ← read_bytes frame 46 8;
   txlen ← get_txbuflength port 3;
   Some (sub, pay, txlen, DCtO))
  = Some ([14; 3; 0x00; 0x10; 0x10; 0x09; 8; 0; 0xff; 0xff],
          [1; 2; 3; 4; 5; 6; 7; 8], 56, 32).
Proof. by vm_compute. Qed.

(** C8 on a target with four-byte pointers: [sizeof(DCtime)] is 4.  The
    frame [Nexx__LRWDC] hands to the transport is 52 bytes long and its
    FRMW datagram has payload length 4 and carries the four low bytes of
    the DC time only, where eight are meant.  The eight bytes the function
    then reads at [DCtO] run over the working counter of the datagram: with
    a reference clock at 1000 and a working counter of 1 it returns
    [1000 + 2 ^ 32] as DC time. *)
Theorem LRWDC_ilp32_datagram :
  ('(port, _, DCtime, _) ← @Nexx__LRWDC (canned_nic 3 lrwdc_reply_ilp32 4) ilp32
                             (filled_port 0xff) 0x10000 8
                             [1; 2; 3; 4; 5; 6; 7; 8] 0x1000
                             0x0807060504030201 2000;
   frame ← tx_frame port 3;
   sub ← read_bytes frame 36 10;
   pay ← read_bytes frame 46 8;
   txlen ← get_txbuflength port 3;
   Some (sub, pay, txlen, DCtime))
  = Some ([14; 3; 0x00; 0x10; 0x10; 0x09; 4; 0; 0xff; 0xff],
          [1; 2; 3; 4; 0; 0; 0xff; 0xff], 52, 1000 + 2 ^ 32).
Proof.
  vm_compute. reflexivity.
Qed.

(** * Further properties *)

(** ** The frame builder over a whole frame *)

Lemma build_frame_fields port frame idx d0 ds :
  Forall wf_datagram (d0 :: ds) →
  16 + area (d0 :: ds) ≤ Z.of_nat (length frame) →
  Nex_ECATTYPE + area (d0 :: ds) < 65536 →
  0 ≤ idx < Z.of_nat (length (txbuflength port)) →
  ∀ port' frame',
    build_frame port frame idx d0 ds = Some (port', frame') →
    port' = mk_port (txbuf port) (rxbuf port)
              (<[Z.to_nat idx := 16 + area (d0 :: ds)]> (txbuflength port))
              (bufstat port)
    ∧ (∀ j d, (d0 :: ds) !! j = Some d →
         datagram_at frame' (dg_off (d0 :: ds) j) idx d)
    ∧ (∀ off n, off + n ≤ 14 ∨ 16 + area (d0 :: ds) ≤ off →
         read_bytes frame' off n = read_bytes frame off n).
Proof.
  induction ds as [|d ds IH] using rev_ind;
    intros Hwf Hfit Hwrap Hidx port' frame' Hbuild.
  - apply Forall_singleton in Hwf as [Hlen Hdata].
    cbn [area foldr] in Hfit, Hwrap.
    destruct (setupdatagram_spec port frame (dg_com d0) idx (dg_ADP d0)
                (dg_ADO d0) (dg_len d0) (dg_data d0))
      as (f' & E & _ & _ & Hc & Hi & Hp & Ho & _ & Hpay & Hwkc & Hother);
      [lia | lia | done | done |].
    unfold build_frame in Hbuild. rewrite E in Hbuild. simpl in Hbuild.
    injection Hbuild as <- <-. cbn [area foldr]. split; [|split].
    + f_equal. f_equal. lia.
    + intros [|j] d Hj; [|by destruct j]. injection Hj as <-.
      unfold dg_off. cbn [take area foldr].
      replace (16 + 0) with 16 by lia. replace (16 + 10) with 26 by lia.
      split; [|by split].
      apply (read_bytes_app _ 16 1 5 [dg_com d0]); [done|].
      apply (read_bytes_app _ 17 1 4 [idx]); [done|].
      by apply (read_bytes_app _ 18 2 2 (htoes (dg_ADP d0))).
    + intros off n Hout. apply Hother; unfold disjoint; lia.
  - rewrite app_comm_cons in Hwf, Hfit, Hwrap.
    apply Forall_app in Hwf as [Hwf Hd]. rewrite Forall_singleton in Hd.
    rewrite area_app in Hfit, Hwrap. destruct Hd as [Hlen Hdata].
    change (area [d]) with (12 + dg_len d + 0) in Hfit, Hwrap.
    pose proof (area_nonneg _ Hwf) as Hnn.
    destruct (build_frame_inv port frame idx d0 ds)
      as (p1 & f1 & E1 & L1 & T1 & Ha & Hb & Hc); [done | lia | lia | done |].
    destruct (IH Hwf ltac:(lia) ltac:(lia) Hidx p1 f1 E1)
      as (Hp1 & Hfields & Hout).
    assert (28 ≤ 16 + area (d0 :: ds)) as Hprev.
    { inversion Hwf as [|?? [??] Hwf']; subst. pose proof (area_nonneg _ Hwf').
      cbn [area foldr]. fold (area ds). lia. }
    destruct (field16_inv _ _ _ Hb) as (el & Rel & _).
    pose proof (Hc 0%nat d0 eq_refl) as Hc0.
    unfold dg_off in Hc0. cbn [take area foldr] in Hc0.
    replace (16 + 0 + 6) with 22 in Hc0 by lia.
    destruct (field16_inv _ _ _ Hc0) as (dl & Rdl & _).
    destruct (adddatagram_spec p1 f1 (dg_com d) idx (dg_more d) (dg_ADP d)
                (dg_ADO d) (dg_len d) (dg_data d) (16 + area (d0 :: ds)) el dl)
      as (f2 & E2 & L2 & _ & _ & Hcom & Hidx' & Hadp & Hado & _ & Hpay & Hwkc
          & Hother);
      [done | unfold Nex_ECATTYPE in *; lia | lia | lia | done | done | done |].
    rewrite build_frame_snoc, E1 in Hbuild. cbn [mbind option_bind] in Hbuild.
    rewrite E2 in Hbuild. cbn [mbind option_bind] in Hbuild.
    injection Hbuild as <- <-.
    rewrite !app_comm_cons, area_app. change (area [d]) with (12 + dg_len d + 0).
    split; [|split].
    + rewrite Hp1. cbn [txbuf rxbuf txbuflength bufstat].
      rewrite list_insert_insert_eq. f_equal. f_equal.
      unfold area. cbn [foldr]. lia.
    + intros j d' Hj.
      destruct (decide (j < length (d0 :: ds))%nat) as [Hlt|Hge].
      * rewrite lookup_app_l in Hj by done.
        assert (dg_off ((d0 :: ds) ++ [d]) j = dg_off (d0 :: ds) j) as ->.
        { unfold dg_off. by rewrite take_app_le by lia. }
        destruct (Hfields j d' Hj) as (Hh & Hq & Hw).
        destruct (area_lookup _ _ _ Hwf Hj) as [Hlo Hhi].
        assert (0 ≤ dg_len d').
        { eapply Forall_lookup_1 in Hwf as [??]; [|done]. lia. }
        assert (dg_off (d0 :: ds) j = 16 ∨ 28 ≤ dg_off (d0 :: ds) j) as Hoff.
        { unfold dg_off. destruct j as [|j]; [left; cbn [take area foldr]; lia|].
          right. inversion Hwf as [|?? [??] Hwf']; subst.
          cbn [take area foldr]. fold (area (take j ds)).
          pose proof (area_nonneg (take j ds) (Forall_take _ _ _ Hwf')). lia. }
        unfold dg_off in *.
        split; [|split]; rewrite Hother by (unfold disjoint; lia); done.
      * assert (j = length (d0 :: ds)) as ->.
        { apply lookup_lt_Some in Hj. rewrite length_app in Hj. simpl in *. lia. }
        rewrite list_lookup_middle in Hj by done. injection Hj as <-.
        unfold dg_off. rewrite take_app_length.
        split; [|by split].
        apply (read_bytes_app _ _ 1 5 [dg_com d]); [done|].
        apply (read_bytes_app _ _ 1 4 [idx]); [done|].
        apply (read_bytes_app _ _ 2 2 (htoes (dg_ADP d))).
        -- by replace (16 + area (d0 :: ds) + 1 + 1)
             with (16 + area (d0 :: ds) + 2) by lia.
        -- by replace (16 + area (d0 :: ds) + 1 + 1 + 2)
             with (16 + area (d0 :: ds) + 4) by lia.
    + intros off n Hout'. rewrite Hother by (unfold disjoint; lia).
      apply Hout. lia.
Qed.

(** Later [Nexx__adddatagram] calls do not disturb the datagrams already in
    the frame: after one [Nexx__setupdatagram] call and any number of
    [Nexx__adddatagram] calls every datagram lies whole at its offset, one
    behind the other: command, index, ADP, ADO, its payload length in the
    dlength word, its payload and a zeroed working counter. *)
Theorem build_frame_layout port frame idx d0 ds :
  Forall wf_datagram (d0 :: ds) →
  16 + area (d0 :: ds) ≤ Z.of_nat (length frame) →
  Nex_ECATTYPE + area (d0 :: ds) < 65536 →
  0 ≤ idx < Z.of_nat (length (txbuflength port)) →
  ∃ port' frame',
    build_frame port frame idx d0 ds = Some (port', frame')
    ∧ ∀ j d, (d0 :: ds) !! j = Some d →
        datagram_at frame' (dg_off (d0 :: ds) j) idx d
        ∧ field16 frame' (dg_off (d0 :: ds) j + 6)
          = Some (dl_val (dg_len d) (expected_more ds j)).
Proof.
  intros Hwf Hfit Hwrap Hidx.
  destruct (build_frame_inv port frame idx d0 ds)
    as (port' & frame' & E & _ & _ & _ & _ & Hdl); [done..|].
  destruct (build_frame_fields port frame idx d0 ds Hwf Hfit Hwrap Hidx
              port' frame' E) as (_ & Hfields & _).
  exists port', frame'. split; [done|]. intros j d Hj. split; auto.
Qed.

Lemma build_frame_layout_witness :
  ∃ port' frame',
    build_frame (filled_port 0xff) (filled_frame 0xff) 3 lrw_dg
      [frmw_dg true; frmw_dg false]
    = Some (port', frame')
    ∧ ∀ j d, (lrw_dg :: [frmw_dg true; frmw_dg false]) !! j = Some d →
        datagram_at frame'
          (dg_off (lrw_dg :: [frmw_dg true; frmw_dg false]) j) 3 d
        ∧ field16 frame'
            (dg_off (lrw_dg :: [frmw_dg true; frmw_dg false]) j + 6)
          = Some (dl_val (dg_len d)
                    (expected_more [frmw_dg true; frmw_dg false] j)).
Proof.
  apply build_frame_layout.
  - repeat constructor; simpl; try lia; by intros.
  - vm_compute. discriminate.
  - vm_compute. reflexivity.
  - vm_compute. split; [discriminate | reflexivity].
Defined.

(** Building a frame in place in transmit slot [idx]: of the port, the
    transmit buffer of slot [idx] and [txbuflength[idx]] change and nothing
    else; [txbuflength[idx]] becomes the length of the frame; the buffer
    keeps its size, and of its bytes only those between the Ethernet header
    and the end of the frame are written, whatever they held before. *)
Theorem build_in_slot_effect port frame idx d0 ds :
  tx_frame port idx = Some frame →
  idx < Z.of_nat (length (txbuflength port)) →
  Forall wf_datagram (d0 :: ds) →
  16 + area (d0 :: ds) ≤ Z.of_nat (length frame) →
  Nex_ECATTYPE + area (d0 :: ds) < 65536 →
  ∃ frame',
    build_in_slot port idx d0 ds
    = Some (staged port idx frame' (16 + area (d0 :: ds)))
    ∧ length frame' = length frame
    ∧ ∀ off n, off + n ≤ ETH_HEADERSIZE ∨ 16 + area (d0 :: ds) ≤ off →
        read_bytes frame' off n = read_bytes frame off n.
Proof.
  intros Htx Hlt Hwf Hfit Hwrap.
  assert (0 ≤ idx < Z.of_nat (length (txbuflength port))) as Hidx.
  { split; [|done]. revert Htx. unfold tx_frame. by destruct (decide _). }
  destruct (build_frame_inv port frame idx d0 ds)
    as (port' & frame' & E & L & _); [done..|].
  destruct (build_frame_fields port frame idx d0 ds Hwf Hfit Hwrap Hidx
              port' frame' E) as (-> & _ & Hout).
  exists frame'. split; [|split; [done | exact Hout]].
  unfold build_in_slot. rewrite Htx. cbn [mbind option_bind].
  rewrite E. done.
Qed.

Lemma build_in_slot_effect_witness :
  ∃ frame',
    build_in_slot (filled_port 0xff) 3 lrw_dg [frmw_dg true; frmw_dg false]
    = Some (staged (filled_port 0xff) 3 frame'
              (16 + area (lrw_dg :: [frmw_dg true; frmw_dg false])))
    ∧ length frame' = length (filled_frame 0xff)
    ∧ ∀ off n, off + n ≤ ETH_HEADERSIZE
               ∨ 16 + area (lrw_dg :: [frmw_dg true; frmw_dg false]) ≤ off →
        read_bytes frame' off n = read_bytes (filled_frame 0xff) off n.
Proof.
  apply build_in_slot_effect.
  - reflexivity.
  - vm_compute. reflexivity.
  - repeat constructor; simpl; try lia; by intros.
  - vm_compute. discriminate.
  - vm_compute. reflexivity.
Defined.

(** ** The primitives, from request to reply *)

Lemma list_inserts_0 (k l : list Z) :
  (length k ≤ length l)%nat → list_inserts 0 k l = k ++ drop (length k) l.
Proof.
  intros Hk. apply list_eq. intros j.
  destruct (decide (j < length k)%nat) as [Hj|Hj].
  - rewrite list_lookup_inserts by lia. rewrite lookup_app_l by lia.
    f_equal. lia.
  - rewrite list_lookup_inserts_ge by lia. rewrite lookup_app_r by lia.
    rewrite lookup_drop. f_equal. lia.
Qed.

Lemma copy_reply_Some port idx data len rx reply :
  rx_frame port idx = Some rx →
  read_bytes rx 12 len = Some reply →
  len ≤ Z.of_nat (length data) →
  copy_reply port idx data len = Some (reply ++ drop (Z.to_nat len) data).
Proof.
  intros Hrx Hrep Hlen. pose proof (read_bytes_length _ _ _ _ Hrep) as Hl.
  unfold copy_reply, memcpy. rewrite Hrx. cbn [mbind option_bind].
  revert Hrep. unfold read_bytes, Nex_HEADERSIZE.
  destruct (decide _) as [(? & ? & ?)|]; [|done]. intros [= <-].
  rewrite decide_True by (rewrite length_drop; lia).
  cbn [mbind option_bind]. change (Z.to_nat 0) with 0%nat. rewrite drop_0.
  unfold write_bytes. rewrite decide_True by lia.
  rewrite list_inserts_0 by lia. do 2 f_equal. f_equal. lia.
Qed.

Lemma logadr_bytes l : htoes (LO_WORD l) ++ htoes (HI_WORD l) = le_bytes 4 l.
Proof.
  unfold htoes, LO_WORD, HI_WORD. change 0xffff with (Z.ones 16).
  rewrite Z.land_ones, Z.shiftr_div_pow2 by lia. cbn [le_bytes app].
  change (2 ^ 16) with (256 * 256). rewrite <-!Z.div_div by lia.
  rewrite Z.rem_mul_r by lia.
  assert ((l `mod` 256 + 256 * ((l `div` 256) `mod` 256)) `mod` 256
          = l `mod` 256) as -> by (Z.div_mod_to_equations; lia).
  assert ((l `mod` 256 + 256 * ((l `div` 256) `mod` 256)) `div` 256
          = (l `div` 256) `mod` 256) as ->.
  { rewrite Z.add_comm, Z.mul_comm, Z.div_add_l by lia.
    rewrite (Z.div_small (l `mod` 256)) by (apply Z.mod_pos_bound; lia).
    apply Z.add_0_r. }
  by rewrite Z.mod_mod by lia.
Qed.

Lemma etohll_htoell t : - 2 ^ 63 ≤ t < 2 ^ 63 → etohll (htoell t) = t.
Proof.
  intros Ht. unfold etohll, htoell. rewrite le_value_le_bytes. cbv zeta.
  change (256 ^ Z.of_nat 8) with (2 ^ 64).
  destruct (decide (0 ≤ t)).
  - rewrite Z.mod_small by lia. rewrite decide_True by lia. done.
  - replace (t `mod` 2 ^ 64) with (t + 2 ^ 64).
    + rewrite decide_False by lia. lia.
    + apply Z.mod_unique with (-1); lia.
Qed.

Section PrimitiveProperties.
Context `{NicDrv}.

Lemma tx_frame_inv port idx frame :
  tx_frame port idx = Some frame → 0 ≤ idx < Z.of_nat (length (txbuf port)).
Proof.
  unfold tx_frame. destruct (decide _); [|done].
  intros ?%lookup_lt_Some. lia.
Qed.

(** What a single-datagram primitive hands to the transport. *)
Lemma request_sends port com ADP ADO len data p1 idx frame :
  Nexx__getindex port = (p1, idx) →
  tx_frame p1 idx = Some frame →
  idx < Z.of_nat (length (txbuflength p1)) →
  0 ≤ len → 28 + len ≤ Z.of_nat (length frame) →
  (is_read_cmd com = false → len ≤ Z.of_nat (length data)) →
  ∃ p2, request port com ADP ADO len data = Some (p2, idx)
    ∧ sends p1 p2 idx ([com; idx] ++ htoes ADP ++ htoes ADO ++ htoes len) len
        (payload com len data).
Proof.
  intros Hget Htx Hidx Hlen Hfit Hdata.
  pose proof (tx_frame_inv _ _ _ Htx) as Hslot.
  destruct (setupdatagram_spec p1 frame com idx ADP ADO len data)
    as (f' & E & _ & Hel & Hc & Hi & Hp & Ho & Hl & Hpay & Hwkc & _);
    [done | done | done | lia |].
  unfold request. rewrite Hget, Htx. cbn [mbind option_bind].
  rewrite E. cbn [mbind option_bind]. eexists. split; [done|].
  exists f'. repeat split; try done.
  apply (read_bytes_app _ 16 1 7 [com]); [done|].
  apply (read_bytes_app _ 17 1 6 [idx]); [done|].
  apply (read_bytes_app _ 18 2 4 (htoes ADP)); [done|].
  by apply (read_bytes_app _ 20 2 2 (htoes ADO)).
Qed.

Lemma write_prims_shape prim com :
  (prim, com) ∈ write_prims →
  ∀ port ADP ADO len data timeout,
    prim port ADP ADO len data timeout
    = '(p, idx) ← request port com ADP ADO len data;
      let '(p, wkc) := Nexx__srconfirm p idx timeout in
      Some (Nexx__setbufstat p idx Nex_BUF_EMPTY, wkc).
Proof.
  unfold write_prims. rewrite !elem_of_cons, elem_of_nil.
  intros [[= -> ->]|[[= -> ->]|[[= -> ->]|[]]]] port ADP ADO len data timeout;
    [unfold Nexx__BWR | unfold Nexx__APWR | unfold Nexx__FPWR];
    unfold request; run_setup; done.
Qed.

Lemma write_prims_cmd prim com :
  (prim, com) ∈ write_prims → is_read_cmd com = false.
Proof.
  unfold write_prims. rewrite !elem_of_cons, elem_of_nil.
  by intros [[= -> ->]|[[= -> ->]|[[= -> ->]|[]]]].
Qed.

Lemma read_prims_shape prim com :
  (prim, com) ∈ read_prims →
  ∀ port ADP ADO len data timeout,
    prim port ADP ADO len data timeout
    = '(p, idx) ← request port com ADP ADO len data;
      let '(p, wkc) := Nexx__srconfirm p idx timeout in
      data ← (if decide (wkc > 0) then copy_reply p idx data len
              else Some data);
      Some (Nexx__setbufstat p idx Nex_BUF_EMPTY, data, wkc).
Proof.
  unfold read_prims. rewrite !elem_of_cons, elem_of_nil.
  intros [[= -> ->]|[[= -> ->]|[[= -> ->]|[[= -> ->]|[[= -> ->]|[]]]]]]
    port ADP ADO len data timeout;
    [unfold Nexx__BRD | unfold Nexx__APRD | unfold Nexx__ARMW
     | unfold Nexx__FRMW | unfold Nexx__FPRD];
    unfold request; run_setup; done.
Qed.

Lemma logical_read_prims_shape prim com :
  (prim, com) ∈ logical_read_prims →
  ∀ port LogAdr len data timeout,
    prim port LogAdr len data timeout
    = '(p, idx) ← request port com (LO_WORD LogAdr) (HI_WORD LogAdr) len data;
      let '(p, wkc) := Nexx__srconfirm p idx timeout in
      data ← (if decide (wkc > 0) then
                cmd ← reply_command p idx;
                if decide (cmd = com) then copy_reply p idx data len
                else Some data
              else Some data);
      Some (Nexx__setbufstat p idx Nex_BUF_EMPTY, data, wkc).
Proof.
  unfold logical_read_prims. rewrite !elem_of_cons, elem_of_nil.
  intros [[= -> ->]|[[= -> ->]|[]]] port LogAdr len data timeout;
    [unfold Nexx__LRD | unfold Nexx__LRW];
    unfold request; run_setup; done.
Qed.

Lemma sends_logical p1 p2 idx com LogAdr len pay :
  sends p1 p2 idx
    ([com; idx] ++ htoes (LO_WORD LogAdr) ++ htoes (HI_WORD LogAdr)
     ++ htoes len) len pay →
  sends p1 p2 idx ([com; idx] ++ le_bytes 4 LogAdr ++ htoes len) len pay.
Proof.
  intros Hs. replace (le_bytes 4 LogAdr ++ htoes len)
    with (htoes (LO_WORD LogAdr) ++ htoes (HI_WORD LogAdr) ++ htoes len);
    [done|]. by rewrite app_assoc, logadr_bytes.
Qed.

(** The write primitives [Nexx__BWR], [Nexx__APWR] and [Nexx__FPWR]: the
    slot the transport hands out is filled with one datagram of their
    command, the index of the slot, [ADP], [ADO] and [len] in little-endian
    order, the first [len] bytes of [data] and a zeroed working counter,
    [txbuflength] is set to [28 + len], the transport is run on that port
    and the slot is released; the result is the working counter of the
    transport. *)
Theorem write_primitives prim com :
  (prim, com) ∈ write_prims →
  ∀ port ADP ADO len data timeout p1 idx frame,
    Nexx__getindex port = (p1, idx) →
    tx_frame p1 idx = Some frame →
    idx < Z.of_nat (length (txbuflength p1)) →
    0 ≤ len ≤ Z.of_nat (length data) →
    28 + len ≤ Z.of_nat (length frame) →
    ∃ p2,
      sends p1 p2 idx ([com; idx] ++ htoes ADP ++ htoes ADO ++ htoes len) len
        (take (Z.to_nat len) data)
      ∧ prim port ADP ADO len data timeout
        = Some (Nexx__setbufstat (Nexx__srconfirm p2 idx timeout).1 idx
                  Nex_BUF_EMPTY,
                (Nexx__srconfirm p2 idx timeout).2).
Proof.
  intros Hin port ADP ADO len data timeout p1 idx frame Hget Htx Hidx Hlen Hfit.
  destruct (request_sends port com ADP ADO len data p1 idx frame)
    as (p2 & Hreq & Hs); [done | done | done | lia | done | lia |].
  exists p2. split.
  - unfold payload in Hs. by rewrite (write_prims_cmd _ _ Hin) in Hs.
  - rewrite (write_prims_shape _ _ Hin), Hreq. cbn [mbind option_bind].
    by destruct (Nexx__srconfirm p2 idx timeout).
Qed.

(** The word variants [Nexx__APWRw] and [Nexx__FPWRw] send the same
    datagram with [len = 2] and as payload the two bytes of the word,
    low byte first (the object representation of a [uint16] on a
    little-endian host). *)
Theorem word_write_primitives prim com :
  (prim, com) ∈ word_write_prims →
  ∀ port ADP ADO data timeout p1 idx frame,
    Nexx__getindex port = (p1, idx) →
    tx_frame p1 idx = Some frame →
    idx < Z.of_nat (length (txbuflength p1)) →
    30 ≤ Z.of_nat (length frame) →
    ∃ p2,
      sends p1 p2 idx ([com; idx] ++ htoes ADP ++ htoes ADO ++ htoes 2) 2
        [data `mod` 256; (data `div` 256) `mod` 256]
      ∧ prim port ADP ADO data timeout
        = Some (Nexx__setbufstat (Nexx__srconfirm p2 idx timeout).1 idx
                  Nex_BUF_EMPTY,
                (Nexx__srconfirm p2 idx timeout).2).
Proof.
  intros Hin port ADP ADO data timeout p1 idx frame Hget Htx Hidx Hfit.
  assert (∃ wr, (wr, com) ∈ write_prims
                ∧ prim port ADP ADO data timeout
                  = wr port ADP ADO 2 (le_bytes 2 data) timeout)
    as (wr & Hwr & ->).
  { revert Hin. unfold word_write_prims, write_prims.
    rewrite !elem_of_cons, elem_of_nil.
    intros [[= -> ->]|[[= -> ->]|[]]]; eexists; (split; [|reflexivity]);
      rewrite !elem_of_cons; auto. }
  destruct (request_sends port com ADP ADO 2 (le_bytes 2 data) p1 idx frame)
    as (p2 & Hreq & Hs); [done | done | done | lia | lia | simpl; lia |].
  exists p2. split.
  - unfold payload in Hs. by rewrite (write_prims_cmd _ _ Hwr) in Hs.
  - rewrite (write_prims_shape _ _ Hwr), Hreq. cbn [mbind option_bind].
    by destruct (Nexx__srconfirm p2 idx timeout).
Qed.

(** [Nexx__LWR] sends one LWR datagram whose four address bytes are the
    logical address in little-endian order, with the first [len] bytes of
    [data] as payload, and returns the working counter of the
    transport. *)
Theorem LWR_sends port LogAdr len data timeout p1 idx frame :
  Nexx__getindex port = (p1, idx) →
  tx_frame p1 idx = Some frame →
  idx < Z.of_nat (length (txbuflength p1)) →
  0 ≤ LogAdr < 2 ^ 32 →
  0 ≤ len ≤ Z.of_nat (length data) →
  28 + len ≤ Z.of_nat (length frame) →
  ∃ p2,
    sends p1 p2 idx ([Nex_CMD_LWR; idx] ++ le_bytes 4 LogAdr ++ htoes len) len
      (take (Z.to_nat len) data)
    ∧ Nexx__LWR port LogAdr len data timeout
      = Some (Nexx__setbufstat (Nexx__srconfirm p2 idx timeout).1 idx
                Nex_BUF_EMPTY,
              (Nexx__srconfirm p2 idx timeout).2).
Proof.
  intros Hget Htx Hidx _ Hlen Hfit.
  destruct (request_sends port Nex_CMD_LWR (LO_WORD LogAdr) (HI_WORD LogAdr)
              len data p1 idx frame)
    as (p2 & Hreq & Hs); [done | done | done | lia | done | lia |].
  exists p2. split; [by apply sends_logical|].
  revert Hreq. unfold Nexx__LWR, request. rewrite Hget, Htx.
  cbn [mbind option_bind].
  destruct (Nexx__setupdatagram _ _ _ _ _ _ _ _) as [[[? ?] ?]|]; [|done].
  cbn [mbind option_bind]. intros [= <-].
  by destruct (Nexx__srconfirm _ idx timeout).
Qed.

(** The read primitives [Nexx__BRD], [Nexx__APRD], [Nexx__ARMW],
    [Nexx__FRMW] and [Nexx__FPRD] send one datagram of their command
    (payload zeroed for BRD, APRD and FPRD, taken from [data] for the
    read-multiple-write commands) and release the slot.  When the transport
    returns a positive working counter, the first [len] bytes of [data] are
    replaced by the bytes at offset 12 of the received frame; otherwise
    [data] is returned as it was.  The working counter of the transport is
    returned in both cases. *)
Theorem read_primitives prim com :
  (prim, com) ∈ read_prims →
  ∀ port ADP ADO len data timeout p1 idx frame,
    Nexx__getindex port = (p1, idx) →
    tx_frame p1 idx = Some frame →
    idx < Z.of_nat (length (txbuflength p1)) →
    0 ≤ len ≤ Z.of_nat (length data) →
    28 + len ≤ Z.of_nat (length frame) →
    ∃ p2,
      sends p1 p2 idx ([com; idx] ++ htoes ADP ++ htoes ADO ++ htoes len) len
        (payload com len data)
      ∧ ∀ p3 wkc,
          Nexx__srconfirm p2 idx timeout = (p3, wkc) →
          (wkc ≤ 0 →
           prim port ADP ADO len data timeout
           = Some (Nexx__setbufstat p3 idx Nex_BUF_EMPTY, data, wkc))
          ∧ (∀ rx reply,
               0 < wkc →
               rx_frame p3 idx = Some rx →
               read_bytes rx 12 len = Some reply →
               prim port ADP ADO len data timeout
               = Some (Nexx__setbufstat p3 idx Nex_BUF_EMPTY,
                       reply ++ drop (Z.to_nat len) data, wkc)).
Proof.
  intros Hin port ADP ADO len data timeout p1 idx frame Hget Htx Hidx Hlen Hfit.
  destruct (request_sends port com ADP ADO len data p1 idx frame)
    as (p2 & Hreq & Hs); [done | done | done | lia | done | lia |].
  exists p2. split; [done|]. intros p3 wkc Hsr.
  rewrite (read_prims_shape _ _ Hin), Hreq. cbn [mbind option_bind].
  rewrite Hsr. split.
  - intros Hw. by rewrite decide_False by lia.
  - intros rx reply Hw Hrx Hrep. rewrite decide_True by lia.
    rewrite (copy_reply_Some _ _ _ _ _ _ Hrx Hrep) by lia. done.
Qed.

(** The word variants [Nexx__APRDw] and [Nexx__FPRDw] send an APRD
    (respectively FPRD) datagram of length 2 with a zeroed payload; when
    the transport returns a positive working counter they return the word
    whose low byte is at offset 12 and whose high byte is at offset 13 of
    the received frame. *)
Theorem word_read_primitives prim com :
  (prim, com) ∈ word_read_prims →
  ∀ port ADP ADO timeout p1 idx frame,
    Nexx__getindex port = (p1, idx) →
    tx_frame p1 idx = Some frame →
    idx < Z.of_nat (length (txbuflength p1)) →
    30 ≤ Z.of_nat (length frame) →
    ∃ p2,
      sends p1 p2 idx ([com; idx] ++ htoes ADP ++ htoes ADO ++ htoes 2) 2
        [0; 0]
      ∧ ∀ p3 wkc rx b0 b1,
          Nexx__srconfirm p2 idx timeout = (p3, wkc) →
          0 < wkc →
          rx_frame p3 idx = Some rx →
          read_bytes rx 12 2 = Some [b0; b1] →
          prim port ADP ADO timeout
          = Some (Nexx__setbufstat p3 idx Nex_BUF_EMPTY, b0 + 256 * b1).
Proof.
  intros Hin port ADP ADO timeout p1 idx frame Hget Htx Hidx Hfit.
  assert (∃ rd, (rd, com) ∈ read_prims ∧ com ∈ read_cmds
                ∧ prim port ADP ADO timeout
                  = '(port, w, _) ← rd port ADP ADO 2 (le_bytes 2 0) timeout;
                    Some (port, le_value w))
    as (rd & Hrd & Hcom & ->).
  { revert Hin. unfold word_read_prims, read_prims, read_cmds.
    rewrite !elem_of_cons, elem_of_nil.
    intros [[= -> ->]|[[= -> ->]|[]]]; eexists;
      (split; [|split; [|reflexivity]]); rewrite !elem_of_cons; auto 10. }
  destruct (request_sends port com ADP ADO 2 (le_bytes 2 0) p1 idx frame)
    as (p2 & Hreq & Hs); [done | done | done | lia | lia | simpl; lia |].
  exists p2. split.
  - by rewrite (payload_read _ _ _ Hcom) in Hs.
  - intros p3 wkc rx b0 b1 Hsr Hw Hrx Hrep.
    rewrite (read_prims_shape _ _ Hrd), Hreq. cbn [mbind option_bind].
    rewrite Hsr. rewrite decide_True by lia.
    rewrite (copy_reply_Some _ _ _ _ _ _ Hrx Hrep) by (simpl; lia).
    change (drop (Z.to_nat 2) (le_bytes 2 0)) with (@nil Z).
    cbn [mbind option_bind app le_value]. do 2 f_equal. lia.
Qed.

(** The logical read primitives [Nexx__LRD] and [Nexx__LRW] send one
    datagram of their command whose four address bytes are the logical
    address in little-endian order (payload zeroed for LRD, taken from
    [data] for LRW) and release the slot.  When the transport returns a
    positive working counter and the command byte of the received frame is
    the command sent, the first [len] bytes of [data] are replaced by the
    bytes at offset 12 of the received frame; when the working counter is
    not positive, [data] is returned as it was. *)
Theorem logical_read_primitives prim com :
  (prim, com) ∈ logical_read_prims →
  ∀ port LogAdr len data timeout p1 idx frame,
    Nexx__getindex port = (p1, idx) →
    tx_frame p1 idx = Some frame →
    idx < Z.of_nat (length (txbuflength p1)) →
    0 ≤ LogAdr < 2 ^ 32 →
    0 ≤ len ≤ Z.of_nat (length data) →
    28 + len ≤ Z.of_nat (length frame) →
    ∃ p2,
      sends p1 p2 idx ([com; idx] ++ le_bytes 4 LogAdr ++ htoes len) len
        (payload com len data)
      ∧ ∀ p3 wkc,
          Nexx__srconfirm p2 idx timeout = (p3, wkc) →
          (wkc ≤ 0 →
           prim port LogAdr len data timeout
           = Some (Nexx__setbufstat p3 idx Nex_BUF_EMPTY, data, wkc))
          ∧ (∀ rx reply,
               0 < wkc →
               rx_frame p3 idx = Some rx →
               rx !! 2%nat = Some com →
               read_bytes rx 12 len = Some reply →
               prim port LogAdr len data timeout
               = Some (Nexx__setbufstat p3 idx Nex_BUF_EMPTY,
                       reply ++ drop (Z.to_nat len) data, wkc)).
Proof.
  intros Hin port LogAdr len data timeout p1 idx frame Hget Htx Hidx _ Hlen Hfit.
  destruct (request_sends port com (LO_WORD LogAdr) (HI_WORD LogAdr) len data
              p1 idx frame)
    as (p2 & Hreq & Hs); [done | done | done | lia | done | lia |].
  exists p2. split; [by apply sends_logical|]. intros p3 wkc Hsr.
  rewrite (logical_read_prims_shape _ _ Hin), Hreq. cbn [mbind option_bind].
  rewrite Hsr. split.
  - intros Hw. by rewrite decide_False by lia.
  - intros rx reply Hw Hrx Hcmd Hrep. rewrite decide_True by lia.
    unfold reply_command. rewrite Hrx. cbn [mbind option_bind].
    change (Z.to_nat Nex_CMDOFFSET) with 2%nat. rewrite Hcmd.
    cbn [mbind option_bind]. rewrite decide_True by done.
    rewrite (copy_reply_Some _ _ _ _ _ _ Hrx Hrep) by lia. done.
Qed.

End PrimitiveProperties.

Lemma write_primitives_witness :
  ∃ p2,
    sends (filled_port 0) p2 3
      ([Nex_CMD_FPWR; 3] ++ htoes 0x1001 ++ htoes 0x0120 ++ htoes 2) 2
      (take (Z.to_nat 2) [0x11; 0x22; 0x33])
    ∧ @Nexx__FPWR (canned_nic 3 (filled_frame 0) 1) (filled_port 0)
        0x1001 0x0120 2 [0x11; 0x22; 0x33] 2000
      = Some (@Nexx__setbufstat (canned_nic 3 (filled_frame 0) 1)
                (@Nexx__srconfirm (canned_nic 3 (filled_frame 0) 1) p2 3
                   2000).1 3 Nex_BUF_EMPTY,
              (@Nexx__srconfirm (canned_nic 3 (filled_frame 0) 1) p2 3
                 2000).2).
Proof.
  eapply (@write_primitives (canned_nic 3 (filled_frame 0) 1)
           (@Nexx__FPWR (canned_nic 3 (filled_frame 0) 1)) Nex_CMD_FPWR).
  - unfold write_prims. rewrite !elem_of_cons. auto 10.
  - reflexivity.
  - reflexivity.
  - vm_compute. reflexivity.
  - simpl. lia.
  - vm_compute. discriminate.
Defined.

Lemma word_write_primitives_witness :
  ∃ p2,
    sends (filled_port 0) p2 3
      ([Nex_CMD_APWR; 3] ++ htoes 0 ++ htoes 0x0010 ++ htoes 2) 2
      [0x1234 `mod` 256; (0x1234 `div` 256) `mod` 256]
    ∧ @Nexx__APWRw (canned_nic 3 (filled_frame 0) 1) (filled_port 0)
        0 0x0010 0x1234 2000
      = Some (@Nexx__setbufstat (canned_nic 3 (filled_frame 0) 1)
                (@Nexx__srconfirm (canned_nic 3 (filled_frame 0) 1) p2 3
                   2000).1 3 Nex_BUF_EMPTY,
              (@Nexx__srconfirm (canned_nic 3 (filled_frame 0) 1) p2 3
                 2000).2).
Proof.
  eapply (@word_write_primitives (canned_nic 3 (filled_frame 0) 1)
           (@Nexx__APWRw (canned_nic 3 (filled_frame 0) 1)) Nex_CMD_APWR).
  - unfold word_write_prims. rewrite !elem_of_cons. auto 10.
  - reflexivity.
  - reflexivity.
  - vm_compute. reflexivity.
  - vm_compute. discriminate.
Defined.

Lemma LWR_sends_witness :
  ∃ p2,
    sends (filled_port 0) p2 3
      ([Nex_CMD_LWR; 3] ++ le_bytes 4 0x00012000 ++ htoes 4) 4
      (take (Z.to_nat 4) [1; 2; 3; 4])
    ∧ @Nexx__LWR (canned_nic 3 (filled_frame 0) 2) (filled_port 0)
        0x00012000 4 [1; 2; 3; 4] 2000
      = Some (@Nexx__setbufstat (canned_nic 3 (filled_frame 0) 2)
                (@Nexx__srconfirm (canned_nic 3 (filled_frame 0) 2) p2 3
                   2000).1 3 Nex_BUF_EMPTY,
              (@Nexx__srconfirm (canned_nic 3 (filled_frame 0) 2) p2 3
                 2000).2).
Proof.
  eapply (@LWR_sends (canned_nic 3 (filled_frame 0) 2)).
  - reflexivity.
  - reflexivity.
  - vm_compute. reflexivity.
  - lia.
  - simpl. lia.
  - vm_compute. discriminate.
Defined.

Lemma read_primitives_witness :
  ∃ p, @Nexx__BRD (canned_nic 3 (lrwdc_reply Nex_CMD_BRD) 3) (filled_port 0)
         0 0x0130 8 [0; 0; 0; 0; 0; 0; 0; 0; 0xaa] 2000
       = Some (p, [11; 12; 13; 14; 15; 16; 17; 18; 0xaa], 3).
Proof.
  destruct (@read_primitives (canned_nic 3 (lrwdc_reply Nex_CMD_BRD) 3)
              (@Nexx__BRD (canned_nic 3 (lrwdc_reply Nex_CMD_BRD) 3))
              Nex_CMD_BRD
              ltac:(unfold read_prims; rewrite !elem_of_cons; auto 10)
              (filled_port 0) 0 0x0130 8 [0; 0; 0; 0; 0; 0; 0; 0; 0xaa] 2000
              (filled_port 0) 3 (filled_frame 0))
    as (p2 & (f & -> & _) & Hrun).
  - reflexivity.
  - reflexivity.
  - vm_compute. reflexivity.
  - simpl. lia.
  - vm_compute. discriminate.
  - edestruct Hrun as [_ Hok]; [reflexivity|].
    eexists.
    apply (Hok (lrwdc_reply Nex_CMD_BRD) [11; 12; 13; 14; 15; 16; 17; 18]).
    + lia.
    + reflexivity.
    + reflexivity.
Defined.

Lemma word_read_primitives_witness :
  ∃ p, @Nexx__FPRDw (canned_nic 3 (lrwdc_reply Nex_CMD_FPRD) 1) (filled_port 0)
         0x1001 0x0130 2000
       = Some (p, 11 + 256 * 12).
Proof.
  destruct (@word_read_primitives (canned_nic 3 (lrwdc_reply Nex_CMD_FPRD) 1)
              (@Nexx__FPRDw (canned_nic 3 (lrwdc_reply Nex_CMD_FPRD) 1))
              Nex_CMD_FPRD
              ltac:(unfold word_read_prims; rewrite !elem_of_cons; auto 10)
              (filled_port 0) 0x1001 0x0130 2000
              (filled_port 0) 3 (filled_frame 0))
    as (p2 & (f & -> & _) & Hrun).
  - reflexivity.
  - reflexivity.
  - vm_compute. reflexivity.
  - vm_compute. discriminate.
  - eexists.
    eapply (Hrun _ 1 (lrwdc_reply Nex_CMD_FPRD) 11 12).
    + reflexivity.
    + lia.
    + reflexivity.
    + reflexivity.
Defined.

Lemma logical_read_primitives_witness :
  ∃ p, @Nexx__LRD (canned_nic 3 (lrwdc_reply Nex_CMD_LRD) 2) (filled_port 0)
         0x00012000 8 [0; 0; 0; 0; 0; 0; 0; 0] 2000
       = Some (p, [11; 12; 13; 14; 15; 16; 17; 18], 2).
Proof.
  destruct (@logical_read_primitives (canned_nic 3 (lrwdc_reply Nex_CMD_LRD) 2)
              (@Nexx__LRD (canned_nic 3 (lrwdc_reply Nex_CMD_LRD) 2))
              Nex_CMD_LRD
              ltac:(unfold logical_read_prims; rewrite !elem_of_cons; auto 10)
              (filled_port 0) 0x00012000 8 [0; 0; 0; 0; 0; 0; 0; 0] 2000
              (filled_port 0) 3 (filled_frame 0))
    as (p2 & (f & -> & _) & Hrun).
  - reflexivity.
  - reflexivity.
  - vm_compute. reflexivity.
  - lia.
  - simpl. lia.
  - vm_compute. discriminate.
  - edestruct Hrun as [_ Hok]; [reflexivity|].
    eexists.
    apply (Hok (lrwdc_reply Nex_CMD_LRD) [11; 12; 13; 14; 15; 16; 17; 18]).
    + lia.
    + reflexivity.
    + reflexivity.
    + reflexivity.
Defined.

(** ** [Nexx__LRWDC] from request to reply *)

Section DcProperties.
Context `{NicDrv} `{Target}.

Lemma LRWDC_frame_result p1 frame idx LogAdr len data DCrs DCtime :
  0 ≤ idx < Z.of_nat (length (txbuflength p1)) →
  0 ≤ len ≤ Z.of_nat (length data) →
  28 + len < 65536 →
  0 ≤ sizeof_ptr ≤ 8 →
  40 + len + sizeof_ptr ≤ Z.of_nat (length frame) →
  ∃ frame',
    LRWDC_frame p1 frame idx LogAdr len data DCrs DCtime
    = Some (mk_port (txbuf p1) (rxbuf p1)
              (<[Z.to_nat idx := 40 + len + sizeof_ptr]> (txbuflength p1))
              (bufstat p1),
            frame', 24 + len).
Proof.
  intros Hidx Hlen Hmax Hptr Hfit.
  destruct (setupdatagram_spec p1 frame Nex_CMD_LRW idx (LO_WORD LogAdr)
              (HI_WORD LogAdr) len data)
    as (f1 & E1 & L1 & Hel & _ & _ & _ & _ & Hdl & _);
    [lia | lia | intros _; lia | done |].
  set (q := mk_port _ _ _ _) in E1.
  assert (get_txbuflength q idx = Some (28 + len)) as Hprev
    by (by apply get_set_txbuflength).
  destruct (adddatagram_spec q f1 Nex_CMD_FRMW idx false DCrs
              ECT_REG_DCSYSTIME sizeof_ptr (htoell DCtime) (28 + len)
              (htoes (Nex_ECATTYPE + 12 + len)) (htoes len))
    as (f2 & E2 & _);
    [done | lia | lia | lia | intros _; simpl; lia | done | done |].
  unfold LRWDC_frame. rewrite E1. cbn [mbind option_bind]. cbv zeta.
  rewrite E2. cbn [mbind option_bind].
  replace ((28 + len - 4) `mod` 65536) with (24 + len)
    by (rewrite Z.mod_small; lia).
  exists f2. subst q. cbn [txbuf rxbuf txbuflength bufstat].
  rewrite list_insert_insert_eq.
  by replace (28 + len + 12 + sizeof_ptr) with (40 + len + sizeof_ptr) by lia.
Qed.

(** [Nexx__LRWDC] end to end.  The frame it stages is the one of
    [LRWDC_frame], of [40 + len + sizeof(DCtime)] bytes, and the offset it
    keeps for the DC time is [24 + len].  When the transport returns a
    working counter that is not positive, [data] and [DCtime] come back as
    they were.  When it returns a positive one and the received frame
    starts with an LRW datagram, the first [len] bytes of [data] are
    replaced by the bytes at offset 12 of the received frame, the DC time
    is the signed 64-bit little-endian value at offset [24 + len] of the
    received frame, the payload of the FRMW datagram, and, on a
    little-endian host, the result is the working counter of the LRW
    datagram (the code copies it with [memcpy], without [etohs]). *)
Theorem LRWDC_reads_back port LogAdr len data DCrs DCtime timeout p1 idx frame :
  Nexx__getindex port = (p1, idx) →
  tx_frame p1 idx = Some frame →
  idx < Z.of_nat (length (txbuflength p1)) →
  0 ≤ len ≤ Z.of_nat (length data) →
  28 + len < 65536 →
  0 ≤ sizeof_ptr ≤ 8 →
  40 + len + sizeof_ptr ≤ Z.of_nat (length frame) →
  ∃ q frame',
    LRWDC_frame p1 frame idx LogAdr len data DCrs DCtime
    = Some (q, frame', 24 + len)
    ∧ ∀ p3 wkc,
        Nexx__srconfirm (staged p1 idx frame' (40 + len + sizeof_ptr)) idx
          timeout = (p3, wkc) →
        (wkc ≤ 0 →
         Nexx__LRWDC port LogAdr len data DCrs DCtime timeout
         = Some (Nexx__setbufstat p3 idx Nex_BUF_EMPTY, data, DCtime, wkc))
        ∧ (∀ rx reply w t,
             big_endian = false →
             0 < wkc < 65536 →
             rx_frame p3 idx = Some rx →
             rx !! 2%nat = Some Nex_CMD_LRW →
             read_bytes rx 12 len = Some reply →
             read_bytes rx (12 + len) 2 = Some w →
             Forall uint8 w →
             read_bytes rx (24 + len) 8 = Some (htoell t) →
             - 2 ^ 63 ≤ t < 2 ^ 63 →
             Nexx__LRWDC port LogAdr len data DCrs DCtime timeout
             = Some (Nexx__setbufstat p3 idx Nex_BUF_EMPTY,
                     reply ++ drop (Z.to_nat len) data, t, etohs w)).
Proof.
  intros Hget Htx Hidx Hlen Hmax Hptr Hfit.
  pose proof (tx_frame_inv _ _ _ Htx) as Hslot.
  destruct (LRWDC_frame_result p1 frame idx LogAdr len data DCrs DCtime)
    as (f' & Hf); [lia | done..|].
  eexists _, f'. split; [exact Hf|]. intros p3 wkc Hsr.
  rewrite LRWDC_exchange. unfold exchange_dc. rewrite Hget, Htx.
  cbn [mbind option_bind]. rewrite Hf. cbn [mbind option_bind]. cbv zeta.
  change (set_tx_frame _ idx f')
    with (staged p1 idx f' (40 + len + sizeof_ptr)).
  rewrite Hsr. cbn [mbind option_bind]. split.
  - intros Hw. by rewrite decide_False by lia.
  - intros rx reply w t Hle Hw Hrx Hcmd Hrep Hwkc Hbytes Hdc Ht.
    rewrite decide_True by lia.
    unfold reply_command. rewrite Hrx. cbn [mbind option_bind].
    change (Z.to_nat Nex_CMDOFFSET) with 2%nat. rewrite Hcmd.
    cbn [mbind option_bind]. rewrite decide_True by done.
    rewrite (copy_reply_Some _ _ _ _ _ _ Hrx Hrep) by lia.
    cbn [mbind option_bind].
    unfold Nex_HEADERSIZE, Nex_WKCSIZE. rewrite Hwkc, Hdc.
    cbn [mbind option_bind]. rewrite etohll_htoell by done.
    rewrite memcpy_to_int_low; [done | done | lia | | done].
    apply read_bytes_length in Hwkc. lia.
Qed.

End DcProperties.

Lemma LRWDC_reads_back_witness :
  ∃ p, @Nexx__LRWDC (canned_nic 3 (lrwdc_reply Nex_CMD_LRW) 4) lp64
         (filled_port 0) 0x10000 8 [1; 2; 3; 4; 5; 6; 7; 8] 0x1000 258 2000
       = Some (p, [11; 12; 13; 14; 15; 16; 17; 18], 1000, 3).
Proof.
  destruct (@LRWDC_reads_back (canned_nic 3 (lrwdc_reply Nex_CMD_LRW) 4) lp64
              (filled_port 0) 0x10000 8 [1; 2; 3; 4; 5; 6; 7; 8] 0x1000 258
              2000 (filled_port 0) 3 (filled_frame 0))
    as (q & f & _ & Hrun).
  - reflexivity.
  - reflexivity.
  - vm_compute. reflexivity.
  - simpl. lia.
  - lia.
  - simpl. lia.
  - vm_compute. discriminate.
  - edestruct Hrun as [_ Hok]; [reflexivity|].
    eexists.
    apply (Hok (lrwdc_reply Nex_CMD_LRW) [11; 12; 13; 14; 15; 16; 17; 18]
             (htoes 3) 1000).
    + reflexivity.
    + lia.
    + reflexivity.
    + reflexivity.
    + reflexivity.
    + reflexivity.
    + cbv [htoes le_bytes].
      repeat first [apply Forall_nil_2 | apply Forall_cons_2];
        vm_compute; (split; [discriminate | reflexivity]).
    + reflexivity.
    + lia.
Defined.
